(** * F1 data analysis and strategy simulator: a shallow embedding

    The development follows the Python sources [RaceAnalysis.py] and
    [RaceStrategySimulator.py].  Data tables (pandas frames) are lists of
    records, dictionaries are finite maps, the interactive prompt is a list
    of pending input lines, and the random generator is a stream of draws
    together with a cursor.

    Idealisations, stated once:
    - text is ASCII; [upper], [split] and [py_int] are the ASCII fragments
      of [str.upper], [str.split] and [int];
    - durations are exact rationals, in seconds (pandas stores integer
      nanoseconds and goes through binary floating point); a missing
      duration is [NaT], a missing float is [None]. *)

From Stdlib Require Import ZArith QArith Lqa Lia List String Ascii Permutation FinFun.
From Stdlib Require Import DecimalString DecimalZ DecimalPos DecimalN Sorted.
From stdpp Require Import base gmap strings.
Import ListNotations.

Local Open Scope string_scope.
Local Open Scope Z_scope.

(** ** Python built-ins used by the sources *)

Module Py.

(** Exceptions the modelled code can raise. *)
Inductive exn : Type :=
  | IndexError
  | KeyError (key : string)
  | ValueError
  | EOFError
  | TypeError
  | AttributeError.

Inductive res (A : Type) : Type :=
  | Ok (a : A)
  | Raise (e : exn).
Arguments Ok {A} a.
Arguments Raise {A} e.

Definition bind {A B} (m : res A) (k : A -> res B) : res B :=
  match m with
  | Ok a => k a
  | Raise e => Raise e
  end.

(** [str.upper] on ASCII letters. *)
Definition is_lower (c : ascii) : bool :=
  ((97 <=? nat_of_ascii c) && (nat_of_ascii c <=? 122))%nat.

Definition upper_char (c : ascii) : ascii :=
  if is_lower c then ascii_of_nat (nat_of_ascii c - 32) else c.

Fixpoint upper (s : string) : string :=
  match s with
  | EmptyString => EmptyString
  | String c s' => String (upper_char c) (upper s')
  end.

(** Whitespace as [str.split] and [int] see it (ASCII part). *)
Definition is_space (c : ascii) : bool :=
  let n := nat_of_ascii c in
  (((9 <=? n) && (n <=? 13)) || ((28 <=? n) && (n <=? 32)))%nat.

(** [s.split()]: maximal runs of non-whitespace characters. *)
Fixpoint split_go (cur : string) (s : string) : list string :=
  match s with
  | EmptyString => match cur with EmptyString => [] | _ => [cur] end
  | String c s' =>
      if is_space c then
        match cur with
        | EmptyString => split_go EmptyString s'
        | _ => cur :: split_go EmptyString s'
        end
      else split_go (cur ++ String c EmptyString) s'
  end.

Definition split (s : string) : list string := split_go EmptyString s.

(** [s.strip()] as [int] applies it. *)
Fixpoint lstrip (s : string) : string :=
  match s with
  | EmptyString => EmptyString
  | String c s' => if is_space c then lstrip s' else s
  end.

Fixpoint rstrip (s : string) : string :=
  match s with
  | EmptyString => EmptyString
  | String c s' =>
      match rstrip s' with
      | EmptyString => if is_space c then EmptyString else String c EmptyString
      | r => String c r
      end
  end.

Definition strip (s : string) : string := rstrip (lstrip s).

Definition digit_of (c : ascii) : option Z :=
  let n := nat_of_ascii c in
  if ((48 <=? n) && (n <=? 57))%nat then Some (Z.of_nat (n - 48)) else None.

(** Where the digit scanner stands: an underscore may only sit between two
    digits. *)
Inductive scan := AtStart | AfterDigit | AfterUnderscore.

Fixpoint digits_go (st : scan) (acc : Z) (s : string) : option Z :=
  match s with
  | EmptyString => match st with AfterDigit => Some acc | _ => None end
  | String c s' =>
      match digit_of c with
      | Some d => digits_go AfterDigit (10 * acc + d) s'
      | None =>
          if Ascii.eqb c "_" then
            match st with
            | AfterDigit => digits_go AfterUnderscore acc s'
            | _ => None
            end
          else None
      end
  end.

(** [int(s)] in base ten; [None] stands for [ValueError].  (The
    interpreter's configurable limit on the number of digits is not
    modelled.) *)
Definition py_int (s : string) : option Z :=
  match strip s with
  | String "-" r => option_map Z.opp (digits_go AtStart 0 r)
  | String "+" r => digits_go AtStart 0 r
  | r => digits_go AtStart 0 r
  end.

(** No whitespace anywhere in [s]: what one token of [split] looks like. *)
Fixpoint no_space (s : string) : bool :=
  match s with
  | EmptyString => true
  | String c s' => negb (is_space c) && no_space s'
  end.

(** [str(n)] for an integer. *)
Definition str_of_Z (n : Z) : string := NilZero.string_of_int (Z.to_int n).

(** [str.lower] on ASCII letters. *)
Definition is_upper (c : ascii) : bool :=
  ((65 <=? nat_of_ascii c) && (nat_of_ascii c <=? 90))%nat.

Definition lower_char (c : ascii) : ascii :=
  if is_upper c then ascii_of_nat (nat_of_ascii c + 32) else c.

Fixpoint lower (s : string) : string :=
  match s with
  | EmptyString => EmptyString
  | String c s' => String (lower_char c) (lower s')
  end.

(** [s.isdigit()]: at least one character, and digits only. *)
Fixpoint all_digits (s : string) : bool :=
  match s with
  | EmptyString => true
  | String c s' =>
      match digit_of c with
      | Some _ => all_digits s'
      | None => false
      end
  end.

Definition isdigit (s : string) : bool :=
  match s with
  | EmptyString => false
  | _ => all_digits s
  end.

(** [re.split('[,; ]+', s)]: the pieces between maximal runs of commas,
    semicolons and blanks; a run at either end leaves an empty piece
    there. *)
Definition is_separator (c : ascii) : bool :=
  Ascii.eqb c "," || Ascii.eqb c ";" || Ascii.eqb c " ".

Fixpoint re_split_go (cur : string) (in_run : bool) (s : string) : list string :=
  match s with
  | EmptyString => [cur]
  | String c s' =>
      if is_separator c then
        if in_run then re_split_go EmptyString true s'
        else cur :: re_split_go EmptyString true s'
      else re_split_go (cur ++ String c EmptyString) false s'
  end.

Definition re_split (s : string) : list string := re_split_go EmptyString false s.

End Py.

(** ** The data tables *)

Module Pandas.

(** A [Timedelta]: a duration in seconds, or the missing value. *)
Inductive Timedelta : Type :=
  | TD (secs : Q)
  | NaT.

Definition td_add (a b : Timedelta) : Timedelta :=
  match a, b with
  | TD x, TD y => TD (x + y)%Q
  | _, _ => NaT
  end.

(** A float that may be NaN ([None]); NaN propagates through arithmetic. *)
Definition float : Type := option Q.

Definition fmul (a b : float) : float :=
  match a, b with
  | Some x, Some y => Some (x * y)%Q
  | _, _ => None
  end.

Definition fadd (a b : float) : float :=
  match a, b with
  | Some x, Some y => Some (x + y)%Q
  | _, _ => None
  end.

(** [pd.Timedelta(seconds=x)] and [t.total_seconds()]. *)
Definition Timedelta_of_seconds (x : float) : Timedelta :=
  match x with
  | Some q => TD q
  | None => NaT
  end.

Definition total_seconds (t : Timedelta) : float :=
  match t with
  | TD q => Some q
  | NaT => None
  end.

(** The content of a [Time] cell of the results table: a duration already,
    or text that still has to be parsed. *)
Inductive Cell : Type :=
  | CTimedelta (t : Timedelta)
  | CStr (s : string).

(** One row of the results table. *)
Record DriverResult : Type := {
  Abbreviation : string;
  DriverNumber : string;
  Position : option Z;
  Time : Cell
}.

(** One row of the lap table. *)
Record LapRecord : Type := {
  Driver : string;
  LapNumber : Z;
  LapTime : Timedelta;
  Stint : Z;
  Compound : option string
}.

Record Session : Type := {
  results : list DriverResult;
  laps : list LapRecord
}.

(** [frame.iloc[0]]. *)
Definition iloc0 {A} (rows : list A) : Py.res A :=
  match rows with
  | r :: _ => Py.Ok r
  | [] => Py.Raise Py.IndexError
  end.

(** [series.mean()] of a duration column: missing values are skipped, and
    the mean of no value at all is missing. *)
Definition present (ts : list Timedelta) : list Q :=
  flat_map (fun t => match t with TD q => [q] | NaT => [] end) ts.

Definition Qsum (qs : list Q) : Q := fold_right Qplus 0%Q qs.

Definition mean (ts : list Timedelta) : Timedelta :=
  match present ts with
  | [] => NaT
  | qs => TD (Qsum qs / inject_Z (Z.of_nat (length qs)))%Q
  end.

(** [series.max()] of an integer-valued column; NaN on an empty column. *)
Definition col_max (zs : list Z) : option Z :=
  match zs with
  | [] => None
  | z :: zs' => Some (fold_left Z.max zs' z)
  end.

End Pandas.

(** ** RaceAnalysis.py *)

Module RaceAnalysis.
Import Pandas.

(** What the method prints when it gives up and returns [None]. *)
Inductive report : Type :=
  | WinnerTimeInvalid      (* "Winner's race time data is invalid." *)
  | WinnerTimeNotFound     (* "Winner's race time not found." *)
  | NoWinnerTime           (* "Cannot determine the actual race time ..." *)
  | DriverTimeInvalid      (* "Race time data is invalid for driver code ..." *)
  | DriverNotFound.        (* "No race results found for driver code ..." *)

Section WithParser.

(** [pd.to_timedelta] on text belongs to pandas; [None] is its
    [ValueError]. *)
Variable parse_duration : string -> option Timedelta.

Definition to_timedelta (c : Cell) : option Timedelta :=
  match c with
  | CTimedelta t => Some t
  | CStr s => parse_duration s
  end.

(** [results[results['Position'] == p]] *)
Definition at_position (results : list DriverResult) (p : Z) : list DriverResult :=
  List.filter (fun r => match Position r with
                        | Some q => Z.eqb q p
                        | None => false
                        end) results.

(** [results[results['Abbreviation'] == driver_code]] *)
Definition with_code (results : list DriverResult) (driver_code : string)
  : list DriverResult :=
  List.filter (fun r => String.eqb (Abbreviation r) driver_code) results.

(** [get_winner_race_time]: the value returned ([None] for Python's
    [None]) and the lines printed. *)
Definition get_winner_race_time (results : list DriverResult)
  : option Timedelta * list report :=
  match at_position results 1 with
  | w :: _ =>
      match to_timedelta (Time w) with
      | Some winner_time => (Some winner_time, [])
      | None => (None, [WinnerTimeInvalid])
      end
  | [] => (None, [WinnerTimeNotFound])
  end.

(** [get_driver_race_time]. *)
Definition get_driver_race_time (results : list DriverResult) (driver_code : string)
  : Py.res (option Timedelta * list report) :=
  Py.bind (iloc0 (at_position results 1)) (fun winner_data =>
  let winner_code := Abbreviation winner_data in
  let '(winner_race_time, out) := get_winner_race_time results in
  match winner_race_time with
  | None => Py.Ok (None, (out ++ [NoWinnerTime])%list)
  | Some winner_race_time =>
      if String.eqb driver_code winner_code then Py.Ok (Some winner_race_time, out)
      else
        match with_code results driver_code with
        | d :: _ =>
            match to_timedelta (Time d) with
            | Some time_behind =>
                Py.Ok (Some (td_add winner_race_time time_behind), out)
            | None => Py.Ok (None, (out ++ [DriverTimeInvalid])%list)
            end
        | [] => Py.Ok (None, (out ++ [DriverNotFound])%list)
        end
  end).

End WithParser.

(** [get_driver_results] and [get_driver_position]: the first matching
    row, or [None]. *)
Definition get_driver_results (results : list DriverResult) (driver_code : string)
  : option DriverResult :=
  hd_error (with_code results driver_code).

Definition get_driver_position (results : list DriverResult) (position : Z)
  : option DriverResult :=
  hd_error (at_position results position).

(** *** Stints by compound *)

(** A group of [groupby(['Driver', 'Stint', 'Compound'])]. *)
Definition stint_key : Type := string * Z * string.

(** One row of the table [analyze_stint_and_compound_data] returns. *)
Module Stints.
Record row : Type := {
  Driver : string;
  Stint : Z;
  Compound : string;
  StintLength : Z
}.
End Stints.

(** [laps[['Driver', 'Stint', 'Compound', 'LapNumber']].dropna()]: of the
    four columns only the compound can be missing in a [LapRecord]. *)
Definition complete_keys (laps : list LapRecord) : list stint_key :=
  flat_map (fun l => match Pandas.Compound l with
                     | Some c => [(Pandas.Driver l, Pandas.Stint l, c)]
                     | None => []
                     end) laps.

Definition stint_key_dec (a b : stint_key) : {a = b} + {a <> b}.
Proof.
  decide equality; [apply string_dec | decide equality; [apply Z.eq_dec | apply string_dec]].
Defined.

(** The order in which [groupby] lists its groups: by driver, then stint,
    then compound. *)
Definition stint_key_leb (a b : stint_key) : bool :=
  let '(d1, s1, c1) := a in
  let '(d2, s2, c2) := b in
  match String.compare d1 d2 with
  | Lt => true
  | Gt => false
  | Eq =>
      match Z.compare s1 s2 with
      | Lt => true
      | Gt => false
      | Eq => String.leb c1 c2
      end
  end.

Fixpoint insert_key (k : stint_key) (ks : list stint_key) : list stint_key :=
  match ks with
  | [] => [k]
  | k' :: ks' => if stint_key_leb k k' then k :: ks else k' :: insert_key k ks'
  end.

Definition sort_keys (ks : list stint_key) : list stint_key :=
  fold_right insert_key [] ks.

(** The groups of a column of keys: each key once, in order. *)
Definition group_keys (ks : list stint_key) : list stint_key :=
  sort_keys (nodup stint_key_dec ks).

(** [analyze_stint_and_compound_data]: the groups with the number of lap
    records in each, as [StintLength]. *)
Definition analyze_stint_and_compound_data (laps : option (list LapRecord))
  : option (list Stints.row) :=
  match laps with
  | Some laps =>
      let stints := complete_keys laps in
      Some (map (fun k => let '(d, s, c) := k in
                          {| Stints.Driver := d; Stints.Stint := s; Stints.Compound := c;
                             Stints.StintLength :=
                               Z.of_nat (count_occ stint_key_dec stints k) |})
                (group_keys stints))
  | None => None
  end.

End RaceAnalysis.

(** ** RaceStrategySimulator.py *)

Module RaceStrategySimulator.
Import Pandas.

(** A strategy: the (compound, laps) pairs of [self.user_strategy]. *)
Definition strategy : Type := list (string * Z).

(** [self.compound_performance_factor] *)
Definition compound_performance_factor : gmap string Q :=
  <["SOFT" := 1.018%Q]>
  (<["MEDIUM" := 1.038%Q]>
  (<["HARD" := 1.058%Q]>
  (<["WET" := 1.098%Q]>
  (<["INTERMEDIATE" := 1.078%Q]> ∅)))).

(** The object: the fields of [self], with the two attributes of
    [self.data_retriever] the simulator touches.  [lap_data] is [None]
    while the attribute does not exist.  A session whose load failed is
    not distinguished from no session: the accessors return [None] for
    both. *)
Record t : Type := {
  session : option Session;
  lap_data : option (option (list LapRecord));
  analysis : option (list DriverResult);
  user_strategy : strategy;
  simulated_lap_times : list Timedelta;
  total_laps : option Z;
  driver_code : option string
}.

(** [__init__] *)
Definition init : t := {|
  session := None;
  lap_data := None;
  analysis := None;
  user_strategy := [];
  simulated_lap_times := [];
  total_laps := Some 0;
  driver_code := None
|}.

(** [data_retriever.get_lap_data()] and [data_retriever.get_race_data()] *)
Definition get_lap_data (self : t) : option (list LapRecord) :=
  option_map laps (session self).

Definition get_race_data (self : t) : option (list DriverResult) :=
  option_map results (session self).

(** [load_and_initialize_data]; [provider] is what [load_session] obtains
    from the data provider. *)
Definition load_and_initialize_data (provider : option Session) (self : t) : t :=
  match provider with
  | Some s =>
      {| session := Some s;
         lap_data := lap_data self;
         analysis := Some (results s);
         user_strategy := user_strategy self;
         simulated_lap_times := simulated_lap_times self;
         total_laps := col_max (map LapNumber (laps s));
         driver_code := driver_code self |}
  | None =>
      {| session := None;
         lap_data := lap_data self;
         analysis := analysis self;
         user_strategy := user_strategy self;
         simulated_lap_times := simulated_lap_times self;
         total_laps := total_laps self;
         driver_code := driver_code self |}
  end.

(** *** [input_strategy] *)

(** The [for stint_num] loop with its inner [while True]: the stints still
    to read, the strategy so far, the pending input lines.  The result
    comes with the lines left unread. *)
Fixpoint read_stints (inp : list string) (n : nat) (acc : strategy) {struct inp}
  : Py.res strategy * list string :=
  match n with
  | O => (Py.Ok acc, inp)
  | S n' =>
      match inp with
      | [] => (Py.Raise Py.EOFError, [])
      | stint_info :: rest =>
          match Py.split stint_info with
          | [compound; laps] =>
              match Py.py_int laps with
              | None => (Py.Raise Py.ValueError, rest)
              | Some count =>
                  if (count <=? 0)%Z then read_stints rest n acc
                  else read_stints rest n' (acc ++ [(Py.upper compound, count)])%list
              end
          | _ => (Py.Raise Py.ValueError, rest)
          end
      end
  end.

Definition strategy_laps (s : strategy) : Z :=
  fold_right Z.add 0 (map snd s).

(** [total_strategy_laps != self.total_laps], the right-hand side being a
    float that may be NaN. *)
Definition laps_differ (total_strategy_laps : Z) (total_laps : option Z) : bool :=
  match total_laps with
  | Some n => negb (total_strategy_laps =? n)%Z
  | None => true
  end.

(** How one pass through the body of the outer [while True] ends. *)
Inductive attempt_result : Type :=
  | Accepted (s : strategy)        (* "Strategy accepted." *)
  | TooFewStints                   (* "You need to plan at least 2 stints." *)
  | LapsMismatch (s : strategy)    (* "... do not match the race length ..." *)
  | InvalidInput                   (* the [except ValueError] branch *)
  | EndOfInput.                    (* [input] raised [EOFError] *)

Definition attempt (total_laps : option Z) (inp : list string)
  : attempt_result * list string :=
  match inp with
  | [] => (EndOfInput, [])
  | line :: rest =>
      match Py.py_int line with
      | None => (InvalidInput, rest)
      | Some num_stints =>
          if (num_stints <? 2)%Z then (TooFewStints, rest)
          else
            match read_stints rest (Z.to_nat num_stints) [] with
            | (Py.Ok s, rest') =>
                if laps_differ (strategy_laps s) total_laps
                then (LapsMismatch s, rest')
                else (Accepted s, rest')
            | (Py.Raise Py.EOFError, rest') => (EndOfInput, rest')
            | (Py.Raise _, rest') => (InvalidInput, rest')
            end
      end
  end.

(** The outer loop: passes are repeated until one is accepted.  [fuel]
    bounds the number of passes; [input_strategy] gives one more than
    there are lines, which is never used up (see [input_strategy_loop_fuel]). *)
Fixpoint input_strategy_loop (fuel : nat) (total_laps : option Z) (inp : list string)
  : option (Py.res strategy * list string) :=
  match fuel with
  | O => None
  | S fuel' =>
      match attempt total_laps inp with
      | (Accepted s, rest) => Some (Py.Ok s, rest)
      | (EndOfInput, rest) => Some (Py.Raise Py.EOFError, rest)
      | (_, rest) => input_strategy_loop fuel' total_laps rest
      end
  end.

Definition input_strategy (total_laps : option Z) (inp : list string)
  : Py.res strategy * list string :=
  match input_strategy_loop (S (length inp)) total_laps inp with
  | Some r => r
  | None => (Py.Raise Py.EOFError, [])
  end.

(** *** The completion gate *)

Definition with_lap_data (v : option (option (list LapRecord))) (self : t) : t :=
  {| session := session self;
     lap_data := v;
     analysis := analysis self;
     user_strategy := user_strategy self;
     simulated_lap_times := simulated_lap_times self;
     total_laps := total_laps self;
     driver_code := driver_code self |}.

Definition with_user_strategy (v : strategy) (self : t) : t :=
  {| session := session self;
     lap_data := lap_data self;
     analysis := analysis self;
     user_strategy := v;
     simulated_lap_times := simulated_lap_times self;
     total_laps := total_laps self;
     driver_code := driver_code self |}.

Definition with_simulated_lap_times (v : list Timedelta) (self : t) : t :=
  {| session := session self;
     lap_data := lap_data self;
     analysis := analysis self;
     user_strategy := user_strategy self;
     simulated_lap_times := v;
     total_laps := total_laps self;
     driver_code := driver_code self |}.

Definition with_driver_code (v : option string) (self : t) : t :=
  {| session := session self;
     lap_data := lap_data self;
     analysis := analysis self;
     user_strategy := user_strategy self;
     simulated_lap_times := simulated_lap_times self;
     total_laps := total_laps self;
     driver_code := v |}.

(** [if not hasattr(self.data_retriever, 'lap_data'): ... = get_lap_data()] *)
Definition ensure_lap_data (self : t) : t :=
  match lap_data self with
  | Some _ => self
  | None => with_lap_data (Some (get_lap_data self)) self
  end.

(** [lap_data[lap_data['Driver'] == driver_code]] *)
Definition laps_of (driver_code : string) (ld : list LapRecord) : list LapRecord :=
  List.filter (fun l => String.eqb (Driver l) driver_code) ld.

(** [len(driver_laps) == self.total_laps] *)
Definition len_equals (rows : list LapRecord) (total_laps : option Z) : bool :=
  match total_laps with
  | Some n => (Z.of_nat (length rows) =? n)%Z
  | None => false
  end.

(** [did_driver_finish]: the answer and the object afterwards.  Indexing
    a lap table that is [None] raises [TypeError]. *)
Definition did_driver_finish (self : t) (driver_code : string) : Py.res (bool * t) :=
  let self := ensure_lap_data self in
  match lap_data self with
  | Some (Some ld) => Py.Ok (len_equals (laps_of driver_code ld) (total_laps self), self)
  | _ => Py.Raise Py.TypeError
  end.

(** *** Baselines *)

(** [lap_data[(lap_data['Driver'] == driver_code) &
              (lap_data['Compound'].str.upper() == compound_upper)]] *)
Definition compound_laps_of (driver_code compound_upper : string) (ld : list LapRecord)
  : list LapRecord :=
  List.filter (fun l => String.eqb (Driver l) driver_code &&
                        match Compound l with
                        | Some c => String.eqb (Py.upper c) compound_upper
                        | None => false
                        end) ld.

(** One turn of the loop of [calculate_driver_averages]. *)
Definition average_step (driver_code : string) (ld : list LapRecord)
    (driver_averages : gmap string float) (compound : string) : gmap string float :=
  let compound_upper := Py.upper compound in
  let compound_laps := compound_laps_of driver_code compound_upper ld in
  match compound_laps with
  | _ :: _ =>
      <[compound_upper := total_seconds (mean (map LapTime compound_laps))]> driver_averages
  | [] =>
      <[compound_upper := total_seconds (mean (map LapTime ld))]> driver_averages
  end.

(** [calculate_driver_averages] *)
Definition calculate_driver_averages (self : t) (driver_code : string)
  : Py.res (gmap string float * t) :=
  let self := ensure_lap_data self in
  match get_lap_data self, user_strategy self with
  | _, [] => Py.Ok (∅, self)
  | None, _ :: _ => Py.Raise Py.TypeError
  | Some ld, plan =>
      Py.Ok (fold_left (average_step driver_code ld) (map fst plan) ∅, self)
  end.

(** *** Sampling *)

Section WithRandom.

(** The generator: [rng i] is the [i]-th value of [random_sample()], a
    number of [[0, 1)]; the cursor counts the draws made so far. *)
Variable rng : nat -> Q.

(** [np.random.uniform(low, high)] at cursor [i] *)
Definition uniform (low high : Q) (i : nat) : Q :=
  (low + (high - low) * rng i)%Q.

(** The [for _ in range(laps)] loops: [centre] is the undisturbed lap
    time, [scale] what the deviation is a fraction of. *)
Fixpoint sample_laps (n : nat) (centre scale : float) (cursor : nat)
  : list Timedelta * nat :=
  match n with
  | O => ([], cursor)
  | S n' =>
      let deviation := fmul (Some (uniform (-0.005) 0.005 cursor)) scale in
      let lap_time_with_deviation := fadd centre deviation in
      let '(more, cursor') := sample_laps n' centre scale (S cursor) in
      (Timedelta_of_seconds lap_time_with_deviation :: more, cursor')
  end.

(** The body of the loop over the stints of the plan. *)
Definition simulate_stint (driver_averages : gmap string float)
    (stint : string * Z) (cursor : nat) : Py.res (list Timedelta * nat) :=
  let '(compound, n_laps) := stint in
  let compound_upper := Py.upper compound in
  match driver_averages !! compound_upper with
  | Some base_lap_time =>
      match compound_performance_factor !! compound_upper with
      | Some compound_factor =>
          Py.Ok (sample_laps (Z.to_nat n_laps)
                   (fmul base_lap_time (Some compound_factor)) base_lap_time cursor)
      | None => Py.Raise (Py.KeyError compound_upper)
      end
  | None =>
      Py.Ok (sample_laps (Z.to_nat n_laps) (Some 90%Q) (Some 90%Q) cursor)
  end.

Fixpoint simulate_plan (driver_averages : gmap string float) (plan : strategy)
    (cursor : nat) : Py.res (list Timedelta * nat) :=
  match plan with
  | [] => Py.Ok ([], cursor)
  | stint :: plan' =>
      Py.bind (simulate_stint driver_averages stint cursor) (fun '(times, cursor') =>
      Py.bind (simulate_plan driver_averages plan' cursor') (fun '(more, cursor'') =>
      Py.Ok ((times ++ more)%list, cursor'')))
  end.

(** [simulate_lap_times]: the simulated times, the object and the cursor
    afterwards. *)
Definition simulate_lap_times (self : t) (driver_code : string) (cursor : nat)
  : Py.res (list Timedelta * t * nat) :=
  Py.bind (did_driver_finish self driver_code) (fun '(finished, self) =>
  if negb finished then Py.Ok ([], self, cursor)
  else
    Py.bind (calculate_driver_averages self driver_code) (fun '(driver_averages, self) =>
    Py.bind (simulate_plan driver_averages (user_strategy self) cursor)
      (fun '(simulated_times, cursor') =>
    Py.Ok (simulated_times, self, cursor')))).

End WithRandom.

(** *** Choosing the driver *)

(** [create_driver_mappings]: the two dictionaries, later rows replacing
    earlier ones under the same key. *)
Definition num_to_abbreviation (results : list DriverResult) : gmap string string :=
  fold_left (fun m row => <[DriverNumber row := Abbreviation row]> m) results ∅.

Definition abbreviation_to_num (results : list DriverResult) : gmap string string :=
  fold_left (fun m row => <[Abbreviation row := DriverNumber row]> m) results ∅.

(** The prompt of [get_drivers]: lines are read until one names a driver. *)
Fixpoint ask_driver (n2a a2n : gmap string string) (inp : list string)
  : Py.res (string * list string) :=
  match inp with
  | [] => Py.Raise Py.EOFError
  | line :: rest =>
      let input_id := Py.upper line in
      match n2a !! input_id with
      | Some abbreviation => Py.Ok (abbreviation, rest)
      | None =>
          match a2n !! input_id with
          | Some _ => Py.Ok (input_id, rest)
          | None => ask_driver n2a a2n rest
          end
      end
  end.

(** [get_drivers]: without a session the mappings are not returned and
    unpacking them raises [TypeError]. *)
Definition get_drivers (provider : option Session) (self : t) (inp : list string)
  : Py.res (string * t * list string) :=
  let self := match session self with
              | Some _ => self
              | None => load_and_initialize_data provider self
              end in
  match get_race_data self with
  | Some results =>
      Py.bind (ask_driver (num_to_abbreviation results) (abbreviation_to_num results) inp)
        (fun '(code, rest) => Py.Ok (code, self, rest))
  | None => Py.Raise Py.TypeError
  end.

(** *** Comparison and the whole run *)

Section WithEnvironment.

Variable parse_duration : string -> option Timedelta.
Variable provider : option Session.
Variable rng : nat -> Q.

(** [compare_strategy], as far as the two totals go: the driver's actual
    race time and the sum of the simulated laps.  (The stint table it
    prints is left out.) *)
Definition compare_strategy (self : t) (driver_code : string)
  : Py.res (option Timedelta * Timedelta) :=
  match analysis self with
  | None => Py.Raise Py.AttributeError
  | Some results =>
      Py.bind (RaceAnalysis.get_driver_race_time parse_duration results driver_code)
        (fun '(actual_race_time, _) =>
      let total_simulated_time := fold_left td_add (simulated_lap_times self) (TD 0) in
      Py.Ok (actual_race_time, total_simulated_time))
  end.

(** Where [run_simulation] stops. *)
Inductive stop : Type :=
  | NoRaceData          (* "Cannot run simulation without race data." *)
  | NoDriverCode        (* "Driver code could not be found. ..." *)
  | DidNotFinish        (* "Driver ... did not finish the race." *)
  | Compared (actual_race_time : option Timedelta) (total_simulated_time : Timedelta).

(** [run_simulation]: the object, the unread input and the generator's
    cursor are threaded through; an exception ends the run. *)
Definition run_simulation (self : t) (inp : list string) (cursor : nat)
  : Py.res (stop * t * list string * nat) :=
  let self := match analysis self with
              | Some _ => self
              | None => load_and_initialize_data provider self
              end in
  match analysis self with
  | None => Py.Ok (NoRaceData, self, inp, cursor)
  | Some _ =>
      Py.bind (get_drivers provider self inp) (fun '(code, self, inp) =>
      let self := with_driver_code (Some code) self in
      if String.eqb code "" then Py.Ok (NoDriverCode, self, inp, cursor)
      else
        Py.bind (did_driver_finish self code) (fun '(finished, self) =>
        if negb finished then Py.Ok (DidNotFinish, self, inp, cursor)
        else
          let '(entered, inp) := input_strategy (total_laps self) inp in
          Py.bind entered (fun plan =>
          let self := with_user_strategy plan self in
          Py.bind (simulate_lap_times rng self code cursor) (fun '(times, self, cursor) =>
          let self := with_simulated_lap_times times self in
          Py.bind (compare_strategy self code) (fun '(actual, total) =>
          Py.Ok (Compared actual total, self, inp, cursor))))))
  end.

End WithEnvironment.

(** *** The stint table of [compare_strategy] *)

(** A cell pair of the table; [None] stands for [('N/A', 'N/A')]. *)
Definition table_cell : Type := option (string * Z).

(** [get_actual_stint_info] *)
Definition get_actual_stint_info (actual_stint_data : list RaceAnalysis.Stints.row)
    (stint_number : Z) : table_cell :=
  match List.filter (fun r => (RaceAnalysis.Stints.Stint r =? stint_number)%Z)
          actual_stint_data with
  | stint_info :: _ =>
      Some (RaceAnalysis.Stints.Compound stint_info,
            RaceAnalysis.Stints.StintLength stint_info)
  | [] => None
  end.

(** [max(a, b)] for a float [a] that may be NaN and an integer [b]: the
    first argument stays unless the second is greater. *)
Definition py_max (a : option Z) (b : Z) : option Z :=
  match a with
  | Some x => if (b >? x)%Z then Some b else Some x
  | None => None
  end.

(** [range(1, n + 1)] *)
Definition range_from_one (n : Z) : list Z :=
  map Z.of_nat (seq 1 (Z.to_nat n)).

(** One printed row: the stint number, the actual stint, the planned one. *)
Definition table_row (actual_stint_data : list RaceAnalysis.Stints.row)
    (plan : strategy) (stint_number : Z) : Z * table_cell * table_cell :=
  (stint_number,
   get_actual_stint_info actual_stint_data stint_number,
   if (stint_number <=? Z.of_nat (length plan))%Z
   then nth_error plan (Z.to_nat (stint_number - 1))
   else None).

Section WithParser.

Variable parse_duration : string -> option Timedelta.

(** [compare_strategy], as far as the stint table goes: [Ok None] when no
    actual race time was found and only the message is printed, otherwise
    the rows of the table.  [int] of a NaN raises [ValueError]. *)
Definition compare_strategy_table (self : t) (driver_code : string)
  : Py.res (option (list (Z * table_cell * table_cell))) :=
  match analysis self with
  | None => Py.Raise Py.AttributeError
  | Some results =>
      Py.bind (RaceAnalysis.get_driver_race_time parse_duration results driver_code)
        (fun '(actual_race_time, _) =>
      match RaceAnalysis.analyze_stint_and_compound_data (get_lap_data self) with
      | None => Py.Raise Py.TypeError
      | Some stint_data =>
          let actual_stint_data :=
            List.filter (fun r => String.eqb (RaceAnalysis.Stints.Driver r) driver_code)
              stint_data in
          let max_stints :=
            py_max (col_max (map RaceAnalysis.Stints.Stint actual_stint_data))
              (Z.of_nat (length (user_strategy self))) in
          match actual_race_time with
          | None => Py.Ok None
          | Some _ =>
              match max_stints with
              | None => Py.Raise Py.ValueError
              | Some n =>
                  Py.Ok (Some (map (table_row actual_stint_data (user_strategy self))
                                 (range_from_one n)))
              end
          end
      end)
  end.

End WithParser.

(** *** The run with its table *)

Section WithEnvironmentAndTable.

Variable parse_duration : string -> option Timedelta.
Variable provider : option Session.
Variable rng : nat -> Q.



End WithEnvironmentAndTable.

End RaceStrategySimulator.

(** ** Plotting.py *)

Module Plotting.
Import Pandas.

(** The arguments of one [ax.barh] call. *)
Module Bar.
Record t : Type := {
  y : string;
  width : Z;
  left : Z;
  color : string;
  hatch : bool
}.
End Bar.

(** A legend patch. *)
Record legend_entry : Type := {
  label : string;
  patch_color : string;
  patch_hatch : bool
}.

(** What [plot_tyre_strategies] has drawn so far. *)
Record canvas : Type := {
  bars : list Bar.t;
  legend_entries : list legend_entry;
  existing_labels : list string
}.

Definition blank : canvas :=
  {| bars := []; legend_entries := []; existing_labels := [] |}.

(** [label in existing_labels] *)
Definition labelled (label : string) (cv : canvas) : bool :=
  existsb (String.eqb label) (existing_labels cv).

(** One bar, and its legend patch unless the label is there already. *)
Definition draw (b : Bar.t) (label : string) (cv : canvas) : canvas :=
  if labelled label cv then
    {| bars := (bars cv ++ [b])%list;
       legend_entries := legend_entries cv;
       existing_labels := existing_labels cv |}
  else
    {| bars := (bars cv ++ [b])%list;
       legend_entries :=
         (legend_entries cv ++
          [{| label := label; patch_color := Bar.color b; patch_hatch := Bar.hatch b |}])%list;
       existing_labels := (existing_labels cv ++ [label])%list |}.

Section WithColors.

(** [fastf1.plotting.COMPOUND_COLORS] *)
Variable COMPOUND_COLORS : string -> option string.

(** [COMPOUND_COLORS.get(compound, "grey")] *)
Definition compound_color (compound : string) : string :=
  match COMPOUND_COLORS compound with
  | Some c => c
  | None => "grey"
  end.

(** The loop over the stints of one driver. *)
Fixpoint plot_driver_stints (driver : string) (driver_stints : list RaceAnalysis.Stints.row)
    (previous_stint_end : Z) (cv : canvas) : canvas :=
  match driver_stints with
  | [] => cv
  | row :: rest =>
      let stint_length := RaceAnalysis.Stints.StintLength row in
      let compound := RaceAnalysis.Stints.Compound row in
      let b := {| Bar.y := driver; Bar.width := stint_length;
                  Bar.left := previous_stint_end;
                  Bar.color := compound_color compound; Bar.hatch := false |} in
      plot_driver_stints driver rest (previous_stint_end + stint_length)
        (draw b compound cv)
  end.

(** The loop over the stints of the simulated strategy. *)
Fixpoint plot_simulated_stints (sim_driver : string) (simulated_strategy : list (string * Z))
    (previous_stint_end : Z) (cv : canvas) : canvas :=
  match simulated_strategy with
  | [] => cv
  | (compound, stint_length) :: rest =>
      let b := {| Bar.y := sim_driver; Bar.width := stint_length;
                  Bar.left := previous_stint_end;
                  Bar.color := compound_color (Py.upper compound); Bar.hatch := true |} in
      plot_simulated_stints sim_driver rest (previous_stint_end + stint_length)
        (draw b (Py.upper compound) cv)
  end.

(** [lap_data.loc[lap_data["Driver"] == driver]] *)
Definition stints_of (driver : string) (lap_data : list RaceAnalysis.Stints.row)
  : list RaceAnalysis.Stints.row :=
  List.filter (fun r => String.eqb (RaceAnalysis.Stints.Driver r) driver) lap_data.

(** [plot_tyre_strategies]: what is drawn, or [None] when the data is not
    there and only the message is printed. *)
Definition plot_tyre_strategies (lap_data : option (list RaceAnalysis.Stints.row))
    (drivers : option (list string))
    (driver_code : option string) (simulated_strategy : option (list (string * Z)))
  : option canvas :=
  match lap_data, drivers with
  | Some lap_data, Some drivers =>
      let cv :=
        fold_left (fun cv driver =>
                     plot_driver_stints driver (stints_of driver lap_data) 0 cv)
          drivers blank in
      match simulated_strategy, driver_code with
      | Some ((_ :: _) as plan), Some code =>
          if String.eqb code "" then Some cv
          else Some (plot_simulated_stints ("SIM " ++ code) plan 0 cv)
      | _, _ => Some cv
      end
  | _, _ => None
  end.

End WithColors.

End Plotting.

(** ** Main.py *)

Module Main.
Import Pandas.

(** One row of the race calendar. *)
Record Event : Type := {
  RoundNumber : Z;
  EventName : string;
  Country : string;
  Location : string
}.

(** The body of the [for driver in inputted_drivers] loop. *)
Definition resolve_driver (n2a a2n : gmap string string) (driver : string)
  : list string :=
  match n2a !! driver with
  | Some abbreviation => [abbreviation]
  | None =>
      match a2n !! driver with
      | Some _ => [driver]
      | None => []
      end
  end.

(** [get_drivers_to_analyze]; [keys] is [list(abbreviation_to_num.keys())]. *)
Fixpoint get_drivers_to_analyze (n2a a2n : gmap string string) (keys : list string)
    (inp : list string) : Py.res (list string * list string) :=
  match inp with
  | [] => Py.Raise Py.EOFError
  | line :: rest =>
      let driver_input := Py.upper line in
      let inputted_drivers := Py.re_split (Py.upper driver_input) in
      if String.eqb (Py.lower driver_input) "all" then Py.Ok (keys, rest)
      else
        match flat_map (resolve_driver n2a a2n) inputted_drivers with
        | [] => get_drivers_to_analyze n2a a2n keys rest
        | drivers_to_compare => Py.Ok (drivers_to_compare, rest)
        end
  end.

(** The keys of the dictionary [create_driver_mappings] builds from the
    abbreviations, in the order of their first insertion. *)
Fixpoint first_occurrences (seen : list string) (l : list string) : list string :=
  match l with
  | [] => []
  | x :: l' =>
      if existsb (String.eqb x) seen then first_occurrences seen l'
      else x :: first_occurrences (x :: seen) l'
  end.

Definition abbreviation_keys (results : list DriverResult) : list string :=
  first_occurrences [] (map Abbreviation results).

(** [get_race_from_input]: the result, and the lines left unread. *)
Fixpoint get_race_from_input (calendar : list Event) (inp : list string)
  : Py.res string * list string :=
  match inp with
  | [] => (Py.Raise Py.EOFError, [])
  | race_input :: rest =>
      if Py.isdigit race_input then
        match Py.py_int race_input with
        | None => (Py.Raise Py.ValueError, rest)
        | Some round_number =>
            match List.filter (fun e => (RoundNumber e =? round_number)%Z) calendar with
            | race_row :: _ => (Py.Ok (EventName race_row), rest)
            | [] => get_race_from_input calendar rest
            end
        end
      else
        match Py.strip race_input with
        | EmptyString => get_race_from_input calendar rest
        | _ => (Py.Ok race_input, rest)
        end
  end.

Section WithSchedule.

(** [RaceDataRetriever(year, None).get_race_calendar()] *)
Variable get_race_calendar : Z -> option (list Event).

(** How one pass through the loop of [get_race_details] ends. *)
Inductive pass : Type :=
  | Chosen (year : Z) (race : string)
  | Again
  | Failed (e : Py.exn).

Definition race_details_pass (inp : list string) : pass * list string :=
  match inp with
  | [] => (Failed Py.EOFError, [])
  | line :: rest =>
      match Py.py_int line with
      | None => (Again, rest)
      | Some year =>
          if (year <? 2018)%Z then (Again, rest)
          else
            match get_race_calendar year with
            | None => (Again, rest)
            | Some calendar =>
                match get_race_from_input calendar rest with
                | (Py.Ok race, rest') =>
                    match race with
                    | EmptyString => (Again, rest')
                    | _ => (Chosen year race, rest')
                    end
                | (Py.Raise Py.ValueError, rest') => (Again, rest')
                | (Py.Raise e, rest') => (Failed e, rest')
                end
            end
      end
  end.

(** [get_race_details]; [fuel] bounds the number of passes. *)
Fixpoint get_race_details_loop (fuel : nat) (inp : list string)
  : option (Py.res (Z * string) * list string) :=
  match fuel with
  | O => None
  | S fuel' =>
      match race_details_pass inp with
      | (Chosen year race, rest) => Some (Py.Ok (year, race), rest)
      | (Failed e, rest) => Some (Py.Raise e, rest)
      | (Again, rest) => get_race_details_loop fuel' rest
      end
  end.

Definition get_race_details (inp : list string) : Py.res (Z * string) * list string :=
  match get_race_details_loop (S (length inp)) inp with
  | Some r => r
  | None => (Py.Raise Py.EOFError, [])
  end.

End WithSchedule.

End Main.

(** * Vocabulary of the properties *)

Module Spec.
Import Pandas RaceStrategySimulator.

(** Two texts that differ in the case of their letters only. *)
Fixpoint eq_ignore_case (a b : string) : bool :=
  match a, b with
  | EmptyString, EmptyString => true
  | String x a', String y b' =>
      Ascii.eqb (Py.upper_char x) (Py.upper_char y) && eq_ignore_case a' b'
  | _, _ => false
  end.

(** What a user types to enter a plan: the number of stints, then one
    line per stint. *)
Definition stint_line (stint : string * Z) : string :=
  (fst stint ++ " " ++ Py.str_of_Z (snd stint))%string.

Definition plan_lines (plan : strategy) : list string :=
  Py.str_of_Z (Z.of_nat (length plan)) :: map stint_line plan.

(** The plan as [input_strategy] stores it. *)
Definition entered (plan : strategy) : strategy :=
  map (fun stint => (Py.upper (fst stint), snd stint)) plan.

(** A stint that can be typed on one line and passes the lap check. *)
Definition enterable (stint : string * Z) : Prop :=
  Py.no_space (fst stint) = true /\ fst stint <> "" /\ 0 < snd stint.

(** What every stored stint satisfies. *)
Definition positive_laps (stint : string * Z) : Prop := 0 < snd stint.
Definition upper_cased (stint : string * Z) : Prop :=
  Py.upper (fst stint) = fst stint.

(** The compound of every single planned lap, in order. *)
Definition planned_laps (plan : strategy) : list string :=
  flat_map (fun stint => repeat (Py.upper (fst stint)) (Z.to_nat (snd stint))) plan.

(** The lap numbers recorded for a driver. *)
Definition lap_numbers (driver_code : string) (ld : list LapRecord) : list Z :=
  map LapNumber (laps_of driver_code ld).

(** The driver has exactly one record for each of the laps 1 to [m]. *)
Definition one_record_per_lap (driver_code : string) (ld : list LapRecord) (m : Z)
  : Prop :=
  List.NoDup (lap_numbers driver_code ld) /\
  forall k, In k (lap_numbers driver_code ld) <-> 1 <= k <= m.

(** Equality of floats as numbers; NaN equals nothing. *)
Definition float_eq (a b : float) : Prop :=
  match a, b with
  | Some x, Some y => (x == y)%Q
  | _, _ => False
  end.

(** The factor table as the specification prints it. *)
Definition factor_table : list (string * Q) :=
  [ ("SOFT", 1.018%Q); ("MEDIUM", 1.038%Q); ("HARD", 1.058%Q);
    ("WET", 1.098%Q); ("INTERMEDIATE", 1.078%Q) ].

(** The value the loop of [calculate_driver_averages] stores under an
    upper-cased compound. *)
Definition baseline (driver_code : string) (ld : list LapRecord) (compound_upper : string)
  : float :=
  match compound_laps_of driver_code compound_upper ld with
  | (_ :: _) as compound_laps => total_seconds (mean (map LapTime compound_laps))
  | [] => total_seconds (mean (map LapTime ld))
  end.

(** The mean of the driver's own laps, and of the whole lap table. *)
Definition driver_mean (driver_code : string) (ld : list LapRecord) : float :=
  total_seconds (mean (map LapTime (laps_of driver_code ld))).

Definition table_mean (ld : list LapRecord) : float :=
  total_seconds (mean (map LapTime ld)).

(** The key of a row of the stint table, and the order of the rows. *)
Definition row_key (r : RaceAnalysis.Stints.row) : RaceAnalysis.stint_key :=
  (RaceAnalysis.Stints.Driver r, RaceAnalysis.Stints.Stint r,
   RaceAnalysis.Stints.Compound r).

(** The row the table holds for a group of the column [col]. *)
Definition make_row (col : list RaceAnalysis.stint_key) (k : RaceAnalysis.stint_key)
  : RaceAnalysis.Stints.row :=
  let '(d, s, c) := k in
  {| RaceAnalysis.Stints.Driver := d; RaceAnalysis.Stints.Stint := s;
     RaceAnalysis.Stints.Compound := c;
     RaceAnalysis.Stints.StintLength :=
       Z.of_nat (count_occ RaceAnalysis.stint_key_dec col k) |}.

Definition key_le (a b : RaceAnalysis.stint_key) : Prop :=
  RaceAnalysis.stint_key_leb a b = true.

(** The lap records of a driver on a stint and compound, and the lap
    records of a driver that carry a compound at all. *)
Definition laps_in_group (k : RaceAnalysis.stint_key) (ld : list LapRecord)
  : list LapRecord :=
  List.filter (fun l => match Compound l with
                        | Some c =>
                            if RaceAnalysis.stint_key_dec (Driver l, Stint l, c) k
                            then true else false
                        | None => false
                        end) ld.

Definition laps_with_compound (driver_code : string) (ld : list LapRecord)
  : list LapRecord :=
  List.filter (fun l => String.eqb (Driver l) driver_code &&
                        match Compound l with Some _ => true | None => false end) ld.

(** The sum of the [StintLength] column. *)
Definition stint_total (rows : list RaceAnalysis.Stints.row) : Z :=
  fold_right Z.add 0 (map RaceAnalysis.Stints.StintLength rows).

(** Bars that follow one another from [start] on without gap or overlap. *)
Fixpoint tiled (start : Z) (bs : list Plotting.Bar.t) : Prop :=
  match bs with
  | [] => True
  | b :: bs' =>
      Plotting.Bar.left b = start /\
      tiled (start + Plotting.Bar.width b) bs'
  end.

Definition total_width (bs : list Plotting.Bar.t) : Z :=
  fold_right Z.add 0 (map Plotting.Bar.width bs).

(** The legend holds one patch per label, and no label twice. *)
Definition legend_ok (cv : Plotting.canvas) : Prop :=
  List.NoDup (Plotting.existing_labels cv) /\
  map Plotting.label (Plotting.legend_entries cv) = Plotting.existing_labels cv.

(** A stint whose compound has a performance factor. *)
Definition known_compound (stint : string * Z) : Prop :=
  is_Some (compound_performance_factor !! Py.upper (fst stint)).

(** [rest] is what is left of [inp] after some lines were read. *)
Definition unread (rest inp : list string) : Prop :=
  exists consumed, inp = (consumed ++ rest)%list.

(** A driver code that names a row of the results. *)
Definition in_results (results : list DriverResult) (code : string) : Prop :=
  exists row, In row results /\ Abbreviation row = code.

End Spec.

(** * Sample sessions *)

Module Sample.
Import Pandas RaceStrategySimulator.

Definition mk_lap (d : string) (n : Z) (t : Q) (c : string) : LapRecord :=
  {| Driver := d; LapNumber := n; LapTime := TD t; Stint := 1; Compound := Some c |}.

Definition mk_result (a num : string) (p : option Z) (t : Cell) : DriverResult :=
  {| Abbreviation := a; DriverNumber := num; Position := p; Time := t |}.

(** Text durations of the form the scenario uses, for the sessions below. *)
Definition parse_duration (s : string) : option Timedelta :=
  if String.eqb s "1:30:00.000" then Some (TD 5400)
  else if String.eqb s "+12.345s" then Some (TD 12.345)
  else None.

(** A three-lap race: VER wins, XXX follows 12.345 s behind, DNF stops
    after two laps. *)
Definition short_race : Session :=
  {| results :=
       [ mk_result "VER" "1" (Some 1) (CStr "1:30:00.000");
         mk_result "XXX" "44" (Some 2) (CStr "+12.345s");
         mk_result "DNF" "7" None (CTimedelta NaT) ];
     laps :=
       [ mk_lap "VER" 1 90 "SOFT"; mk_lap "XXX" 1 100 "HARD"; mk_lap "DNF" 1 95 "SOFT";
         mk_lap "VER" 2 92 "SOFT"; mk_lap "XXX" 2 100 "HARD"; mk_lap "DNF" 2 95 "SOFT";
         mk_lap "VER" 3 94 "HARD"; mk_lap "XXX" 3 100 "HARD" ] |}.

(** A results table without a winner row. *)
Definition no_winner : list DriverResult :=
  [ mk_result "XXX" "44" (Some 2) (CStr "+12.345s") ].

(** A session whose results table has no winner row. *)
Definition no_winner_race : Session :=
  {| results := no_winner;
     laps := [ mk_lap "XXX" 1 100 "HARD"; mk_lap "XXX" 2 100 "HARD" ] |}.

(** A 58-lap race that DNF leaves after 40 laps. *)
Definition laps_for (d : string) (n : nat) : list LapRecord :=
  map (fun k => mk_lap d (Z.of_nat k) 90 "SOFT") (seq 1 n).

Definition long_race : Session :=
  {| results :=
       [ mk_result "VER" "1" (Some 1) (CStr "1:30:00.000");
         mk_result "DNF" "7" None (CTimedelta NaT) ];
     laps := (laps_for "VER" 58 ++ laps_for "DNF" 40)%list |}.

(** A generator that always lands in the middle of its range. *)
Definition steady : nat -> Q := fun _ => 0.5%Q.

(** The simulator after VER has been chosen on [short_race] and a plan
    entered. *)
Definition ready (plan : strategy) : t :=
  with_user_strategy plan
    (with_driver_code (Some "VER") (load_and_initialize_data (Some short_race) init)).

(** A race whose lap records carry no compound. *)
Definition no_compound_race : Session :=
  {| results := [ mk_result "VER" "1" (Some 1) (CStr "1:30:00.000") ];
     laps :=
       [ {| Driver := "VER"; LapNumber := 1; LapTime := TD 90; Stint := 1;
            Compound := None |};
         {| Driver := "VER"; LapNumber := 2; LapTime := TD 91; Stint := 1;
            Compound := None |} ] |}.

(** One season's calendar, and a colour map with one entry. *)
Definition calendar_2023 : list Main.Event :=
  [ {| Main.RoundNumber := 6; Main.EventName := "Monaco Grand Prix";
       Main.Country := "Monaco"; Main.Location := "Monte Carlo" |} ].

Definition schedule (year : Z) : option (list Main.Event) :=
  if (year =? 2023)%Z then Some calendar_2023 else None.

Definition colours (compound : string) : option string :=
  if String.eqb compound "SOFT" then Some "red" else None.

(** A race in which VER changes tyres once and one of XXX's laps has no
    compound on record. *)
Definition two_stint_race : Session :=
  {| results :=
       [ mk_result "VER" "1" (Some 1) (CStr "1:30:00.000");
         mk_result "XXX" "44" (Some 2) (CStr "+12.345s") ];
     laps :=
       [ {| Driver := "VER"; LapNumber := 1; LapTime := TD 90; Stint := 1;
            Compound := Some "SOFT" |};
         {| Driver := "XXX"; LapNumber := 1; LapTime := TD 95; Stint := 1;
            Compound := Some "HARD" |};
         {| Driver := "VER"; LapNumber := 2; LapTime := TD 91; Stint := 1;
            Compound := Some "SOFT" |};
         {| Driver := "XXX"; LapNumber := 2; LapTime := TD 96; Stint := 1;
            Compound := None |};
         {| Driver := "VER"; LapNumber := 3; LapTime := TD 93; Stint := 2;
            Compound := Some "HARD" |};
         {| Driver := "XXX"; LapNumber := 3; LapTime := TD 97; Stint := 1;
            Compound := Some "HARD" |} ] |}.

End Sample.

(** * Facts about the built-ins *)

Module PyFacts.
Import Py.

#[local] Arguments String.append : simpl nomatch.

Lemma upper_char_idem c : upper_char (upper_char c) = upper_char c.
Proof.
  destruct c as [[] [] [] [] [] [] [] []]; reflexivity.
Qed.

Lemma upper_idem s : upper (upper s) = upper s.
Proof.
  induction s as [|c s IH]; simpl; [reflexivity|].
  now rewrite upper_char_idem, IH.
Qed.

Lemma append_assoc (a b c : string) : ((a ++ b) ++ c = a ++ (b ++ c))%string.
Proof. induction a; simpl; congruence. Qed.

Lemma append_nil_r (a : string) : (a ++ "")%string = a.
Proof. induction a; simpl; congruence. Qed.

Lemma split_go_token w : forall cur s,
  no_space w = true ->
  split_go cur (w ++ s) = split_go (cur ++ w) s.
Proof.
  induction w as [|c w IH]; intros cur s Hw; simpl in *.
  - now rewrite append_nil_r.
  - apply andb_prop in Hw as [Hc Hw].
    apply negb_true_iff in Hc. rewrite Hc.
    rewrite IH by assumption.
    now rewrite append_assoc.
Qed.

Lemma split_two a b :
  no_space a = true -> a <> "" -> no_space b = true -> b <> "" ->
  split (a ++ " " ++ b) = [a; b].
Proof.
  intros Ha Ha' Hb Hb'. unfold split.
  rewrite split_go_token by assumption. simpl.
  destruct a as [|x a]; [congruence|].
  replace b with (b ++ "")%string at 1 by apply append_nil_r.
  rewrite split_go_token by assumption. simpl.
  destruct b; [congruence|reflexivity].
Qed.

Lemma lstrip_no_space s : no_space s = true -> lstrip s = s.
Proof.
  destruct s as [|c s]; simpl; [reflexivity|].
  intros H. apply andb_prop in H as [Hc _].
  apply negb_true_iff in Hc. now rewrite Hc.
Qed.

Lemma rstrip_no_space s : no_space s = true -> rstrip s = s.
Proof.
  induction s as [|c s IH]; simpl; [reflexivity|].
  intros H. apply andb_prop in H as [Hc Hs].
  apply negb_true_iff in Hc. rewrite IH by assumption.
  rewrite Hc. now destruct s.
Qed.

Lemma strip_no_space s : no_space s = true -> strip s = s.
Proof.
  intros H. unfold strip. rewrite lstrip_no_space by assumption.
  now apply rstrip_no_space.
Qed.

(** Parsing back what [str] printed. *)

Lemma no_space_uint d : no_space (NilEmpty.string_of_uint d) = true.
Proof. induction d; simpl; auto. Qed.

Lemma digits_go_acc d : forall acc,
  digits_go AfterDigit (Z.pos acc) (NilEmpty.string_of_uint d)
  = Some (Z.pos (Pos.of_uint_acc d acc)).
Proof.
  induction d; intros acc; simpl NilEmpty.string_of_uint;
    [reflexivity | simpl ..];
    match goal with
    | |- digits_go _ ?z _ = _ =>
        match goal with
        | |- _ = Some (Z.pos (Pos.of_uint_acc _ ?q)) =>
            replace z with (Z.pos q) by lia
        end
    end; apply IHd.
Qed.

Lemma digits_go_zero d :
  digits_go AfterDigit 0 (NilEmpty.string_of_uint d)
  = Some (Z.of_N (Pos.of_uint d)).
Proof.
  induction d; simpl NilEmpty.string_of_uint;
    [reflexivity | simpl ..];
    first [ exact IHd | apply (digits_go_acc d) ].
Qed.

Lemma digits_go_start d :
  d <> Decimal.Nil ->
  digits_go AtStart 0 (NilEmpty.string_of_uint d)
  = Some (Z.of_N (Pos.of_uint d)).
Proof.
  intros Hd. rewrite <- digits_go_zero.
  destruct d; [congruence | reflexivity ..].
Qed.

Lemma py_int_uint d :
  d <> Decimal.Nil ->
  py_int (NilEmpty.string_of_uint d) = Some (Z.of_N (Pos.of_uint d)).
Proof.
  intros Hd. unfold py_int.
  rewrite strip_no_space by apply no_space_uint.
  rewrite <- digits_go_start by assumption.
  destruct d; [congruence | reflexivity ..].
Qed.

Lemma no_space_str_of_Z n : no_space (str_of_Z n) = true.
Proof.
  destruct n as [|p|p]; unfold str_of_Z; simpl Z.to_int; [reflexivity | |].
  - simpl. destruct (Pos.to_uint p); simpl; auto using no_space_uint.
  - simpl. destruct (Pos.to_uint p); simpl; auto using no_space_uint.
Qed.

Lemma str_of_Z_nonempty n : str_of_Z n <> "".
Proof.
  destruct n as [|p|p]; unfold str_of_Z; simpl Z.to_int; simpl;
    try discriminate.
  destruct (Pos.to_uint p); discriminate.
Qed.

Lemma py_int_str_of_Z n : py_int (str_of_Z n) = Some n.
Proof.
  destruct n as [|p|p]; unfold str_of_Z; simpl Z.to_int.
  - reflexivity.
  - pose proof (DecimalPos.Unsigned.to_uint_nonnil p) as Hd.
    pose proof (DecimalPos.Unsigned.of_to p) as Hp.
    simpl NilZero.string_of_int.
    replace (NilZero.string_of_uint (Pos.to_uint p))
      with (NilEmpty.string_of_uint (Pos.to_uint p))
      by (destruct (Pos.to_uint p); [congruence | reflexivity ..]).
    rewrite py_int_uint by assumption. now rewrite Hp.
  - pose proof (DecimalPos.Unsigned.to_uint_nonnil p) as Hd.
    pose proof (DecimalPos.Unsigned.of_to p) as Hp.
    simpl NilZero.string_of_int.
    replace (NilZero.string_of_uint (Pos.to_uint p))
      with (NilEmpty.string_of_uint (Pos.to_uint p))
      by (destruct (Pos.to_uint p); [congruence | reflexivity ..]).
    unfold py_int.
    rewrite strip_no_space
      by (simpl; apply no_space_uint).
    rewrite digits_go_start by assumption. now rewrite Hp.
Qed.

End PyFacts.

(** * Facts about strategy entry *)

Module EntryFacts.
Import Py Pandas RaceStrategySimulator Spec PyFacts.

#[local] Arguments String.append : simpl nomatch.

(** What a completed [for] loop has appended. *)
Lemma read_stints_ok : forall inp n acc s rest,
  read_stints inp n acc = (Ok s, rest) ->
  exists new,
    s = (acc ++ new)%list /\ length new = n /\
    Forall positive_laps new /\ Forall upper_cased new /\
    (length rest + n <= length inp)%nat.
Proof.
  induction inp as [|line inp IH]; intros n acc s rest H.
  - destruct n; simpl in H; [|discriminate].
    inversion H; subst. exists []. rewrite app_nil_r. repeat split; auto.
  - destruct n as [|n].
    + simpl in H. inversion H; subst. exists [].
      rewrite app_nil_r. repeat split; auto. simpl; lia.
    + simpl in H.
      destruct (split line) as [|compound [|count [|x l]]]; try discriminate.
      destruct (py_int count) as [k|]; [|discriminate].
      destruct (k <=? 0) eqn:Hk.
      * apply IH in H as (new & -> & Hlen & Hpos & Hup & Hrest).
        exists new. repeat split; auto. simpl; lia.
      * apply IH in H as (new & -> & Hlen & Hpos & Hup & Hrest).
        exists ((upper compound, k) :: new).
        rewrite <- app_assoc. simpl.
        repeat split; auto.
        -- constructor; [unfold positive_laps; simpl; lia | assumption].
        -- constructor; [apply upper_idem | assumption].
        -- lia.
Qed.

(** Reading never gives input back. *)
Lemma read_stints_rest : forall inp n acc,
  (length (snd (read_stints inp n acc)) <= length inp)%nat.
Proof.
  induction inp as [|line inp IH]; intros n acc.
  - destruct n; simpl; lia.
  - destruct n as [|n]; [simpl; lia|]. simpl.
    destruct (split line) as [|compound [|count [|x l]]]; simpl; try lia.
    destruct (py_int count) as [k|]; simpl; [|lia].
    destruct (k <=? 0).
    + specialize (IH (S n) acc). lia.
    + specialize (IH n (acc ++ [(upper compound, k)])%list). lia.
Qed.

(** Every pass that does not end the input consumes a line. *)
Lemma attempt_rest total inp :
  inp <> [] ->
  (length (snd (attempt total inp)) < length inp)%nat.
Proof.
  destruct inp as [|line rest]; [congruence|]. intros _. simpl.
  destruct (py_int line) as [n|]; simpl; [|lia].
  destruct (n <? 2); simpl; [lia|].
  pose proof (read_stints_rest rest (Z.to_nat n) []) as Hle.
  destruct (read_stints rest (Z.to_nat n) []) as [[s|e] rest']; simpl in *.
  - destruct (laps_differ _ _); simpl; lia.
  - destruct e; simpl; lia.
Qed.

Lemma attempt_nil total : attempt total [] = (EndOfInput, []).
Proof. reflexivity. Qed.

(** What an accepted pass has checked. *)
Lemma attempt_accepted total inp s rest :
  attempt total inp = (Accepted s, rest) ->
  (2 <= length s)%nat /\ Forall positive_laps s /\ Forall upper_cased s /\
  total = Some (strategy_laps s).
Proof.
  destruct inp as [|line inp']; simpl; [discriminate|].
  destruct (py_int line) as [n|]; [|discriminate].
  destruct (n <? 2) eqn:Hn; [discriminate|].
  destruct (read_stints inp' (Z.to_nat n) []) as [[p|e] rest'] eqn:Hr.
  - unfold laps_differ. destruct total as [m|]; [|discriminate].
    destruct (strategy_laps p =? m) eqn:Hsum; simpl; [|discriminate].
    intros H; inversion H; subst.
    apply read_stints_ok in Hr as (new & -> & Hlen & Hpos & Hup & _).
    simpl. apply Z.ltb_ge in Hn. apply Z.eqb_eq in Hsum.
    simpl in Hsum. repeat split; auto; [lia | congruence].
  - destruct e; discriminate.
Qed.

(** The fuel given by [input_strategy] is never used up. *)
Lemma input_strategy_loop_fuel total : forall n inp fuel,
  (length inp < n)%nat -> (length inp < fuel)%nat ->
  input_strategy_loop fuel total inp = input_strategy_loop n total inp /\
  input_strategy_loop n total inp <> None.
Proof.
  induction n as [|n IH]; intros inp fuel Hn Hf; [lia|].
  destruct fuel as [|fuel]; [lia|]. simpl.
  destruct inp as [|line inp'] eqn:Hinp.
  - rewrite attempt_nil. split; [reflexivity | discriminate].
  - pose proof (attempt_rest total (line :: inp')) as Hlt.
    destruct (attempt total (line :: inp')) as [r rest]. simpl in Hlt.
    assert (length rest < S (length inp'))%nat as Hrest by (apply Hlt; discriminate).
    simpl in Hn, Hf.
    destruct r; try (split; [reflexivity | discriminate]);
      apply IH; lia.
Qed.

(** The loop, one pass at a time. *)
Lemma input_strategy_unfold total inp :
  input_strategy total inp =
  match attempt total inp with
  | (Accepted s, rest) => (Ok s, rest)
  | (EndOfInput, rest) => (Raise EOFError, rest)
  | (_, rest) => input_strategy total rest
  end.
Proof.
  unfold input_strategy at 1. cbn [input_strategy_loop].
  destruct inp as [|line inp'] eqn:Hinp.
  - reflexivity.
  - pose proof (attempt_rest total (line :: inp')) as Hlt.
    destruct (attempt total (line :: inp')) as [r rest]. simpl snd in Hlt.
    assert (length rest < length (line :: inp'))%nat as Hrest
      by (apply Hlt; discriminate).
    assert (input_strategy_loop (length (line :: inp')) total rest
            = input_strategy_loop (S (length rest)) total rest) as Heq
      by (apply input_strategy_loop_fuel; lia).
    destruct r; try reflexivity; unfold input_strategy; now rewrite Heq.
Qed.

(** [input_strategy] always comes back: with a plan or at the end of the
    input. *)
Lemma input_strategy_returns total inp :
  input_strategy_loop (S (length inp)) total inp <> None.
Proof.
  apply (input_strategy_loop_fuel total (S (length inp)) inp (S (length inp))); lia.
Qed.

(** An accepted plan was accepted by some pass. *)
Lemma input_strategy_ok total : forall inp s rest,
  input_strategy total inp = (Ok s, rest) ->
  exists inp', attempt total inp' = (Accepted s, rest).
Proof.
  intros inp. remember (length inp) as n eqn:Hn.
  revert inp Hn. induction n as [n IH] using lt_wf_ind. intros inp Hn s rest H.
  rewrite input_strategy_unfold in H.
  destruct inp as [|line inp'].
  - rewrite attempt_nil in H. discriminate.
  - pose proof (attempt_rest total (line :: inp')) as Hlt.
    destruct (attempt total (line :: inp')) as [r rest0] eqn:Ha. simpl in Hlt.
    assert (length rest0 < n)%nat as Hrest by (subst n; apply Hlt; discriminate).
    destruct r; try discriminate;
      try (eapply IH; [exact Hrest | reflexivity | exact H]).
    inversion H; subst. eauto.
Qed.

Lemma read_stints_done inp acc : read_stints inp 0 acc = (Ok acc, inp).
Proof. now destruct inp. Qed.

(** Typing a plan in, stint after stint. *)
Lemma read_stints_lines : forall plan acc rest,
  Forall enterable plan ->
  read_stints (map stint_line plan ++ rest)%list (length plan) acc
  = (Ok (acc ++ entered plan)%list, rest).
Proof.
  induction plan as [|[c n] plan IH]; intros acc rest Hwf.
  - cbn [map length app entered]. now rewrite read_stints_done, app_nil_r.
  - inversion Hwf as [|x l [Hc [Hne Hn]] Hrest]; subst. simpl in Hc, Hne, Hn.
    cbn [map length app read_stints]. unfold stint_line at 1. cbn [fst snd].
    rewrite split_two
      by auto using no_space_str_of_Z, str_of_Z_nonempty.
    rewrite py_int_str_of_Z.
    replace (n <=? 0) with false by (symmetry; apply Z.leb_gt; lia).
    rewrite IH by assumption.
    now rewrite <- app_assoc.
Qed.

Lemma strategy_laps_entered plan : strategy_laps (entered plan) = strategy_laps plan.
Proof.
  unfold strategy_laps, entered. rewrite map_map. reflexivity.
Qed.

Lemma attempt_plan_lines total plan rest :
  (2 <= length plan)%nat -> Forall enterable plan ->
  attempt total (plan_lines plan ++ rest)%list
  = (if laps_differ (strategy_laps plan) total
     then LapsMismatch (entered plan) else Accepted (entered plan), rest).
Proof.
  intros Hlen Hwf. unfold plan_lines. cbn [app attempt].
  rewrite py_int_str_of_Z.
  replace (Z.of_nat (length plan) <? 2) with false
    by (symmetry; apply Z.ltb_ge; lia).
  rewrite Nat2Z.id, read_stints_lines by assumption.
  cbn [app]. rewrite strategy_laps_entered.
  now destruct (laps_differ _ _).
Qed.

Lemma laps_differ_false n total :
  laps_differ n total = false <-> total = Some n.
Proof.
  unfold laps_differ. destruct total as [m|]; [|split; discriminate].
  rewrite negb_false_iff, Z.eqb_eq. split; congruence.
Qed.

End EntryFacts.

(** * Properties of strategy entry *)

Module EntryProps.
Import Py Pandas RaceStrategySimulator Spec PyFacts EntryFacts.

(** C2, as the code has it: for a plan of at least two stints, each typed as
    a compound token and a positive lap count, the pass that reads it accepts
    it exactly when its lap counts add up to the race length; then
    [input_strategy] returns it, and otherwise the pass reports the mismatch
    and [input_strategy] starts over on the lines that follow, asking for the
    whole plan again. *)
Theorem sum_rule_for_enterable_plans
    (total : option Z) (plan : strategy) (rest : list string)
    (Hlen : (2 <= length plan)%nat) (Hwf : Forall enterable plan) :
  (fst (attempt total (plan_lines plan ++ rest)%list) = Accepted (entered plan)
   <-> total = Some (strategy_laps plan)) /\
  (total = Some (strategy_laps plan) ->
   input_strategy total (plan_lines plan ++ rest)%list = (Ok (entered plan), rest)) /\
  (total <> Some (strategy_laps plan) ->
   attempt total (plan_lines plan ++ rest)%list = (LapsMismatch (entered plan), rest) /\
   input_strategy total (plan_lines plan ++ rest)%list = input_strategy total rest).
Proof.
  pose proof (attempt_plan_lines total plan rest Hlen Hwf) as Ha.
  pose proof (laps_differ_false (strategy_laps plan) total) as Hd.
  destruct (laps_differ (strategy_laps plan) total) eqn:Hdiff.
  - assert (total <> Some (strategy_laps plan)) as Hne
      by (intros Heq; apply Hd in Heq; discriminate).
    split; [split | split].
    + rewrite Ha. discriminate.
    + intros Heq. contradiction.
    + intros Heq. contradiction.
    + intros _. split; [exact Ha|].
      rewrite input_strategy_unfold, Ha. reflexivity.
  - assert (total = Some (strategy_laps plan)) as Heq by (now apply Hd).
    split; [split | split].
    + intros _. exact Heq.
    + intros _. now rewrite Ha.
    + intros _. rewrite input_strategy_unfold, Ha. reflexivity.
    + intros Hne. contradiction.
Qed.

Lemma sum_rule_for_enterable_plans_witness :
  ((2 <= length [("Soft", 20); ("Medium", 38)])%nat /\
   Forall enterable [("Soft", 20); ("Medium", 38)]) /\
  input_strategy (Some 58) ["2"; "Soft 20"; "Medium 38"; "next"]
  = (Ok [("SOFT", 20); ("MEDIUM", 38)], ["next"]).
Proof.
  assert (Forall enterable [("Soft", 20); ("Medium", 38)]) as Hwf.
  { repeat constructor; simpl; try discriminate; lia. }
  split; [split; [simpl; lia | exact Hwf]|].
  apply (sum_rule_for_enterable_plans (Some 58) [("Soft", 20); ("Medium", 38)]
           ["next"]); [simpl; lia | exact Hwf | reflexivity].
Defined.

(** C2 as stated fails: a one-stint plan whose laps add up to the race
    length is turned away by the stint-count check, and no input makes
    [input_strategy] return it. *)
Lemma single_stint_plan_refused :
  strategy_laps [("SOFT", 58)] = 58 /\
  attempt (Some 58) (plan_lines [("SOFT", 58)]) = (TooFewStints, ["SOFT 58"]) /\
  forall inp rest, input_strategy (Some 58) inp <> (Ok [("SOFT", 58)], rest).
Proof.
  split; [reflexivity|]. split; [reflexivity|].
  intros inp rest H.
  apply input_strategy_ok in H as [inp' H].
  apply attempt_accepted in H as (Hlen & _). simpl in Hlen. lia.
Qed.

(** C9: whatever was typed, a plan that [input_strategy] returns has at
    least two stints, a positive lap count in every stint, and lap counts
    that add up to the race length. *)
Theorem accepted_plan_shape
    (total : option Z) (inp : list string) (s : strategy) (rest : list string)
    (H : input_strategy total inp = (Ok s, rest)) :
  (2 <= length s)%nat /\ Forall positive_laps s /\ total = Some (strategy_laps s).
Proof.
  apply input_strategy_ok in H as [inp' H].
  apply attempt_accepted in H as (Hlen & Hpos & _ & Hsum).
  auto.
Qed.

Lemma accepted_plan_shape_witness :
  input_strategy (Some 58)
    ["1"; "Soft 58"; "3"; "Soft 20"; "Hard 0"; "Hard -3"; "Hard 30"; "Medium 8"]
  = (Ok [("SOFT", 20); ("HARD", 30); ("MEDIUM", 8)], []) /\
  (2 <= length [("SOFT", 20); ("HARD", 30); ("MEDIUM", 8)])%nat /\
  Forall positive_laps [("SOFT", 20); ("HARD", 30); ("MEDIUM", 8)] /\
  Some 58 = Some (strategy_laps [("SOFT", 20); ("HARD", 30); ("MEDIUM", 8)]).
Proof.
  split; [reflexivity|].
  apply (accepted_plan_shape (Some 58)
           ["1"; "Soft 58"; "3"; "Soft 20"; "Hard 0"; "Hard -3"; "Hard 30"; "Medium 8"]
           [("SOFT", 20); ("HARD", 30); ("MEDIUM", 8)] []).
  reflexivity.
Defined.

End EntryProps.

(** * Facts about baselines and sampling *)

Module SimulationFacts.
Import Py Pandas RaceStrategySimulator Spec PyFacts.

Lemma average_step_insert code ld m c :
  average_step code ld m c = <[upper c := baseline code ld (upper c)]> m.
Proof.
  unfold average_step, baseline. cbv zeta.
  now destruct (compound_laps_of code (upper c) ld).
Qed.

(** Compounds the loop did not meet keep what the dictionary had. *)
Lemma averages_lookup_other code ld : forall cs (m : gmap string float) k,
  ~ In k (map upper cs) ->
  fold_left (average_step code ld) cs m !! k = m !! k.
Proof.
  induction cs as [|c cs IH]; intros m k Hk; simpl; [reflexivity|].
  simpl in Hk. rewrite IH by tauto.
  rewrite average_step_insert. apply lookup_insert_ne. tauto.
Qed.

(** Compounds of the plan get their baseline, however often they occur. *)
Lemma averages_lookup code ld : forall cs (m : gmap string float) k,
  In k (map upper cs) ->
  fold_left (average_step code ld) cs m !! k = Some (baseline code ld k).
Proof.
  induction cs as [|c cs IH]; intros m k Hk; simpl in *; [contradiction|].
  destruct (in_dec string_dec k (map upper cs)) as [Hin|Hout].
  - now apply IH.
  - destruct Hk as [<-|Hin]; [|contradiction].
    rewrite averages_lookup_other by assumption.
    rewrite average_step_insert. apply lookup_insert_eq.
Qed.

Lemma ensure_lap_data_session self : session (ensure_lap_data self) = session self.
Proof. unfold ensure_lap_data. now destruct (lap_data self). Qed.

Lemma ensure_lap_data_strategy self :
  user_strategy (ensure_lap_data self) = user_strategy self.
Proof. unfold ensure_lap_data. now destruct (lap_data self). Qed.

Lemma ensure_lap_data_times self :
  simulated_lap_times (ensure_lap_data self) = simulated_lap_times self.
Proof. unfold ensure_lap_data. now destruct (lap_data self). Qed.

Lemma ensure_lap_data_total self : total_laps (ensure_lap_data self) = total_laps self.
Proof. unfold ensure_lap_data. now destruct (lap_data self). Qed.

(** With a lap table at hand the averages are always computed. *)
Lemma calculate_driver_averages_ok self code ld :
  get_lap_data self = Some ld ->
  calculate_driver_averages self code
  = Ok (fold_left (average_step code ld) (map fst (user_strategy self)) ∅,
        ensure_lap_data self).
Proof.
  intros Hld. unfold calculate_driver_averages, get_lap_data.
  rewrite ensure_lap_data_session, ensure_lap_data_strategy.
  unfold get_lap_data in Hld. rewrite Hld.
  now destruct (user_strategy self).
Qed.

Lemma in_map_upper_fst (c : string) (plan : strategy) :
  In c (map fst plan) -> In (upper c) (map upper (map fst plan)).
Proof. apply in_map. Qed.

Section Sampling.
Variable rng : nat -> Q.

Lemma sample_laps_shape : forall n centre scale cursor,
  length (fst (sample_laps rng n centre scale cursor)) = n /\
  snd (sample_laps rng n centre scale cursor) = (cursor + n)%nat.
Proof.
  induction n as [|n IH]; intros centre scale cursor; simpl.
  - split; [reflexivity | lia].
  - specialize (IH centre scale (S cursor)).
    destruct (sample_laps rng n centre scale (S cursor)) as [more cursor'].
    simpl in *. destruct IH as [-> ->]. split; [reflexivity | lia].
Qed.

(** Lap [k] of a stint is built from draw [cursor + k]. *)
Lemma sample_laps_nth : forall n centre scale cursor k,
  (k < n)%nat ->
  nth_error (fst (sample_laps rng n centre scale cursor)) k
  = Some (Timedelta_of_seconds
            (fadd centre (fmul (Some (uniform rng (-0.005) 0.005 (cursor + k))) scale))).
Proof.
  induction n as [|n IH]; intros centre scale cursor k Hk; [lia|].
  simpl. specialize (IH centre scale (S cursor)).
  destruct (sample_laps rng n centre scale (S cursor)) as [more cursor'].
  simpl in *. destruct k as [|k]; simpl.
  - now rewrite Nat.add_0_r.
  - rewrite IH by lia. now rewrite Nat.add_succ_r.
Qed.

Lemma simulate_stint_ok avgs c n cursor ts cursor' :
  simulate_stint rng avgs (c, n) cursor = Ok (ts, cursor') ->
  length ts = Z.to_nat n /\ cursor' = (cursor + Z.to_nat n)%nat /\
  forall k base f, (k < Z.to_nat n)%nat ->
    avgs !! upper c = Some base ->
    compound_performance_factor !! upper c = Some f ->
    nth_error ts k
    = Some (Timedelta_of_seconds
              (fadd (fmul base (Some f))
                    (fmul (Some (uniform rng (-0.005) 0.005 (cursor + k))) base))).
Proof.
  unfold simulate_stint.
  destruct (avgs !! upper c) as [base0|] eqn:Hb.
  - destruct (compound_performance_factor !! upper c) as [f0|] eqn:Hf;
      [|discriminate].
    intros H. inversion H as [[Hts Hcur]].
    pose proof (sample_laps_shape (Z.to_nat n) (fmul base0 (Some f0)) base0 cursor)
      as [Hlen Hsnd].
    destruct (sample_laps rng (Z.to_nat n) (fmul base0 (Some f0)) base0 cursor)
      as [ts0 cur0] eqn:Hs.
    simpl in *. inversion H; subst.
    repeat split; auto.
    intros k base f Hk Hbase Hfac. inversion Hbase; inversion Hfac; subst.
    pose proof (sample_laps_nth (Z.to_nat n) (fmul base (Some f)) base cursor k Hk)
      as Hnth.
    now rewrite Hs in Hnth.
  - intros H.
    pose proof (sample_laps_shape (Z.to_nat n) (Some 90%Q) (Some 90%Q) cursor)
      as [Hlen Hsnd].
    destruct (sample_laps rng (Z.to_nat n) (Some 90%Q) (Some 90%Q) cursor)
      as [ts0 cur0] eqn:Hs.
    simpl in *. inversion H; subst.
    repeat split; auto. intros k base f _ Hbase. discriminate.
Qed.

(** The whole plan: one draw per planned lap, in order. *)
Lemma simulate_plan_ok avgs : forall plan cursor times cursor',
  simulate_plan rng avgs plan cursor = Ok (times, cursor') ->
  cursor' = (cursor + length (planned_laps plan))%nat /\
  length times = length (planned_laps plan) /\
  forall k c base f,
    nth_error (planned_laps plan) k = Some c ->
    avgs !! c = Some base ->
    compound_performance_factor !! c = Some f ->
    nth_error times k
    = Some (Timedelta_of_seconds
              (fadd (fmul base (Some f))
                    (fmul (Some (uniform rng (-0.005) 0.005 (cursor + k))) base))).
Proof.
  induction plan as [|[c n] plan IH]; intros cursor times cursor' H.
  - simpl in H. inversion H; subst. simpl.
    repeat split; [lia|]. intros k c base f Hk. destruct k; discriminate.
  - cbn [simulate_plan] in H.
    destruct (simulate_stint rng avgs (c, n) cursor) as [[ts cur1]|e] eqn:Hst;
      [|discriminate].
    cbn [bind] in H.
    destruct (simulate_plan rng avgs plan cur1) as [[more cur2]|e] eqn:Hpl;
      [|discriminate].
    cbn [bind] in H. inversion H; subst. clear H.
    apply simulate_stint_ok in Hst as (Hlen & -> & Hnth).
    apply IH in Hpl as (-> & Hlen' & Hnth').
    unfold planned_laps. cbn [flat_map fst snd]. fold (planned_laps plan).
    rewrite !length_app, repeat_length.
    repeat split; [lia | lia |].
    intros k c0 base f Hk Hbase Hfac.
    destruct (Nat.lt_ge_cases k (Z.to_nat n)) as [Hlt|Hge].
    + rewrite nth_error_app1 in Hk by (rewrite repeat_length; lia).
      apply nth_error_In, repeat_spec in Hk. subst c0.
      rewrite nth_error_app1 by lia. now apply Hnth.
    + rewrite nth_error_app2 in Hk by (rewrite repeat_length; lia).
      rewrite repeat_length in Hk.
      rewrite nth_error_app2 by lia. rewrite Hlen.
      rewrite (Hnth' _ _ _ _ Hk Hbase Hfac).
      replace (cursor + Z.to_nat n + (k - Z.to_nat n))%nat with (cursor + k)%nat
        by lia.
      reflexivity.
Qed.

(** For a driver who finished, [simulate_lap_times] is the loop over the
    plan with the averages just computed. *)
Lemma simulate_lap_times_finished self code cursor self1 avgs self2 :
  did_driver_finish self code = Ok (true, self1) ->
  calculate_driver_averages self1 code = Ok (avgs, self2) ->
  simulate_lap_times rng self code cursor
  = bind (simulate_plan rng avgs (user_strategy self2) cursor)
      (fun '(simulated_times, cursor') => Ok (simulated_times, self2, cursor')).
Proof.
  intros Hfin Havg. unfold simulate_lap_times.
  rewrite Hfin. cbn [bind negb]. rewrite Havg. reflexivity.
Qed.

(** A driver who did not finish gets no lap and costs no draw. *)
Lemma simulate_lap_times_unfinished self code cursor self1 :
  did_driver_finish self code = Ok (false, self1) ->
  simulate_lap_times rng self code cursor = Ok ([], self1, cursor).
Proof.
  intros Hfin. unfold simulate_lap_times. now rewrite Hfin.
Qed.

Lemma uniform_range i :
  (0 <= rng i)%Q -> (rng i < 1)%Q ->
  (-0.005 <= uniform rng (-0.005) 0.005 i)%Q /\
  (uniform rng (-0.005) 0.005 i < 0.005)%Q.
Proof. intros H0 H1. unfold uniform. split; lra. Qed.

End Sampling.

Lemma upper_char_eqb x y :
  Ascii.eqb (upper_char x) (upper_char y) = true -> upper_char x = upper_char y.
Proof. apply Ascii.eqb_eq. Qed.

Lemma eq_ignore_case_upper : forall a b,
  eq_ignore_case a b = true -> upper a = upper b.
Proof.
  induction a as [|x a IH]; intros [|y b] H; simpl in *;
    try discriminate; [reflexivity|].
  apply andb_prop in H as [Hxy Hab].
  apply upper_char_eqb in Hxy. rewrite Hxy. f_equal. now apply IH.
Qed.

(** The dictionary of the class and the printed table agree. *)
Lemma factor_table_lookup k f :
  compound_performance_factor !! k = Some f <-> In (k, f) factor_table.
Proof.
  unfold compound_performance_factor, factor_table.
  rewrite !lookup_insert_Some, lookup_empty. simpl.
  split.
  - intros H. decompose [and or] H; subst; auto 10; discriminate.
  - intros H. decompose [or] H; try contradiction;
      match goal with E : (_, _) = (_, _) |- _ => inversion E; subst end;
      repeat (first [ left; split; [reflexivity | reflexivity]
                    | right; split; [discriminate|] ]).
Qed.

Lemma factor_table_upper k f : In (k, f) factor_table -> upper k = k.
Proof.
  intros H. simpl in H. decompose [or] H; try contradiction;
    match goal with E : (_, _) = (_, _) |- _ => inversion E; subst end;
    reflexivity.
Qed.

Lemma deviation_range (u b : Q) :
  (0 < b)%Q -> (-0.005 <= u)%Q -> (u < 0.005)%Q ->
  (-0.005 * b <= u * b)%Q /\ (u * b < 0.005 * b)%Q.
Proof.
  intros Hb Hlo Hhi. split.
  - apply Qmult_le_compat_r; [assumption | now apply Qlt_le_weak].
  - now apply Qmult_lt_compat_r.
Qed.

End SimulationFacts.

(** * Properties of baselines and sampling *)

Module SimulationProps.
Import Py Pandas RaceStrategySimulator Spec PyFacts SimulationFacts.

(** C1, as the code has it: for every compound of the plan on which the
    driver has no lap, the baseline stored for that compound is the mean
    lap time of the whole lap table, all drivers included. *)
Theorem fallback_is_table_mean
    (self : t) (code : string) (avgs : gmap string float) (self' : t)
    (ld : list LapRecord) (c : string)
    (Havg : calculate_driver_averages self code = Ok (avgs, self'))
    (Hld : get_lap_data self = Some ld)
    (Hplan : In c (map fst (user_strategy self)))
    (Hnone : compound_laps_of code (upper c) ld = []) :
  avgs !! upper c = Some (table_mean ld).
Proof.
  rewrite (calculate_driver_averages_ok self code ld Hld) in Havg.
  inversion Havg; subst.
  rewrite averages_lookup by now apply in_map_upper_fst.
  unfold baseline, table_mean. now rewrite Hnone.
Qed.

Lemma fallback_is_table_mean_witness :
  exists avgs self',
    calculate_driver_averages (Sample.ready [("Medium", 1); ("Soft", 2)]) "VER"
    = Ok (avgs, self') /\
    compound_laps_of "VER" "MEDIUM" (laps Sample.short_race) = [] /\
    avgs !! "MEDIUM" = Some (table_mean (laps Sample.short_race)).
Proof.
  eexists. eexists.
  split; [apply calculate_driver_averages_ok; reflexivity|].
  split; [reflexivity|].
  eapply (fallback_is_table_mean) with
    (self := Sample.ready [("Medium", 1); ("Soft", 2)]) (code := "VER")
    (ld := laps Sample.short_race) (c := "Medium").
  - apply calculate_driver_averages_ok; reflexivity.
  - reflexivity.
  - simpl. auto.
  - reflexivity.
Defined.

(** C1 as stated fails: VER has no lap on MEDIUM, VER's own mean is 92 s,
    and the baseline stored for MEDIUM is the mean of the table, 95.75 s. *)
Lemma fallback_is_not_driver_mean :
  match calculate_driver_averages (Sample.ready [("Medium", 1); ("Soft", 2)]) "VER" with
  | Ok (avgs, _) =>
      compound_laps_of "VER" "MEDIUM" (laps Sample.short_race) = [] /\
      float_eq (driver_mean "VER" (laps Sample.short_race)) (Some 92%Q) /\
      (exists b, avgs !! "MEDIUM" = Some b /\ float_eq b (Some 95.75%Q) /\
                 ~ float_eq b (driver_mean "VER" (laps Sample.short_race)))
  | Raise _ => False
  end.
Proof.
  rewrite (calculate_driver_averages_ok
             (Sample.ready [("Medium", 1); ("Soft", 2)]) "VER"
             (laps Sample.short_race) eq_refl).
  split; [reflexivity|]. split; [reflexivity|].
  eexists. split; [vm_compute; reflexivity|].
  split; [reflexivity|].
  intros H. vm_compute in H. discriminate.
Qed.

(** C4: for a driver who finished, the run makes one draw per planned lap
    and returns one duration per planned lap; lap [k], planned on a
    compound with baseline [b] s and factor [f], lasts [b * f + deviation]
    where the deviation is the [k]-th uniform draw times [b]; with draws
    from [[0, 1)] and a positive baseline the deviation lies in
    [[-0.005 b, 0.005 b)] and the lap in [[b f - 0.005 b, b f + 0.005 b)]. *)
Theorem sampled_lap_within_bounds
    (rng : nat -> Q) (self : t) (code : string) (cursor : nat)
    (self1 self2 : t) (avgs : gmap string float)
    (times : list Timedelta) (self' : t) (cursor' : nat)
    (Hrng : forall i, (0 <= rng i)%Q /\ (rng i < 1)%Q)
    (Hfin : did_driver_finish self code = Ok (true, self1))
    (Havg : calculate_driver_averages self1 code = Ok (avgs, self2))
    (Hrun : simulate_lap_times rng self code cursor = Ok (times, self', cursor')) :
  cursor' = (cursor + length (planned_laps (user_strategy self)))%nat /\
  length times = length (planned_laps (user_strategy self)) /\
  forall k c b f,
    nth_error (planned_laps (user_strategy self)) k = Some c ->
    avgs !! c = Some (Some b) ->
    compound_performance_factor !! c = Some f ->
    let deviation := (uniform rng (-0.005) 0.005 (cursor + k)%nat * b)%Q in
    nth_error times k = Some (TD (b * f + deviation)%Q) /\
    ((0 < b)%Q ->
     (-0.005 * b <= deviation)%Q /\ (deviation < 0.005 * b)%Q /\
     (b * f - 0.005 * b <= b * f + deviation)%Q /\
     (b * f + deviation < b * f + 0.005 * b)%Q).
Proof.
  rewrite (simulate_lap_times_finished rng self code cursor self1 avgs self2 Hfin Havg)
    in Hrun.
  assert (user_strategy self2 = user_strategy self) as Hplan.
  { unfold did_driver_finish in Hfin.
    destruct (lap_data (ensure_lap_data self)) as [[ld|]|] eqn:Hl; try discriminate.
    inversion Hfin; subst.
    unfold calculate_driver_averages in Havg.
    destruct (get_lap_data _), (user_strategy _) eqn:Hu;
      inversion Havg; subst;
      now rewrite ?ensure_lap_data_strategy in *. }
  rewrite Hplan in Hrun.
  destruct (simulate_plan rng avgs (user_strategy self) cursor)
    as [[ts cur]|e] eqn:Hsim; [|discriminate].
  cbn [bind] in Hrun. inversion Hrun; subst. clear Hrun.
  apply simulate_plan_ok in Hsim as (Hcur & Hlen & Hnth).
  split; [exact Hcur|]. split; [exact Hlen|].
  intros k c b f Hk Hb Hf deviation.
  split.
  - rewrite (Hnth k c (Some b) f Hk Hb Hf). reflexivity.
  - intros Hpos.
    destruct (Hrng (cursor + k)%nat) as [H0 H1].
    destruct (uniform_range rng (cursor + k)%nat H0 H1) as [Hlo Hhi].
    destruct (deviation_range _ b Hpos Hlo Hhi) as [Hdlo Hdhi].
    fold deviation in Hdlo, Hdhi.
    repeat split; try assumption; lra.
Qed.

Lemma sampled_lap_within_bounds_witness :
  exists times self' cursor' b,
    simulate_lap_times Sample.steady (Sample.ready [("Soft", 2); ("Hard", 1)]) "VER" 0
    = Ok (times, self', cursor') /\
    (b == 94)%Q /\ cursor' = 3%nat /\ length times = 3%nat /\
    let deviation := (uniform Sample.steady (-0.005) 0.005 2 * b)%Q in
    nth_error times 2 = Some (TD (b * 1.058 + deviation)%Q) /\
    (b * 1.058 - 0.005 * b <= b * 1.058 + deviation)%Q /\
    (b * 1.058 + deviation < b * 1.058 + 0.005 * b)%Q.
Proof.
  set (self := Sample.ready [("Soft", 2); ("Hard", 1)]).
  assert (forall i, (0 <= Sample.steady i)%Q /\ (Sample.steady i < 1)%Q) as Hrng.
  { intros i. split; [discriminate | reflexivity]. }
  assert (did_driver_finish self "VER" = Ok (true, ensure_lap_data self)) as Hfin
    by reflexivity.
  pose proof (calculate_driver_averages_ok (ensure_lap_data self) "VER"
                (laps Sample.short_race) eq_refl) as Havg.
  destruct (simulate_lap_times Sample.steady self "VER" 0)
    as [[[times self'] cursor']|e] eqn:Hrun; [|vm_compute in Hrun; discriminate].
  pose proof (sampled_lap_within_bounds Sample.steady self "VER" 0 _ _ _
                times self' cursor' Hrng Hfin Havg Hrun) as (Hcur & Hlen & Hlap).
  specialize (Hlap 2%nat "HARD" 94%Q 1.058%Q eq_refl
                ltac:(vm_compute; reflexivity) eq_refl)
    as [Hnth Hbounds].
  exists times, self', cursor', 94%Q.
  split; [reflexivity|].
  split; [reflexivity|].
  split; [exact Hcur|]. split; [exact Hlen|].
  split; [exact Hnth|].
  apply Hbounds. reflexivity.
Defined.

(** C8: the dictionary of factors is exactly the printed table, and a
    compound typed in any mix of cases is simulated with the factor of its
    upper-case form: the lap centre is the baseline times that factor. *)
Theorem factor_ignores_case
    (rng : nat -> Q) (avgs : gmap string float)
    (input key : string) (f : Q) (n : Z) (cursor : nat) (base : float)
    (Hcase : eq_ignore_case input key = true)
    (Hkey : In (key, f) factor_table)
    (Hbase : avgs !! key = Some base) :
  (forall k' f', compound_performance_factor !! k' = Some f' <-> In (k', f') factor_table) /\
  upper input = key /\
  compound_performance_factor !! upper input = Some f /\
  simulate_stint rng avgs (upper input, n) cursor
  = Ok (sample_laps rng (Z.to_nat n) (fmul base (Some f)) base cursor) /\
  simulate_stint rng avgs (input, n) cursor
  = Ok (sample_laps rng (Z.to_nat n) (fmul base (Some f)) base cursor).
Proof.
  assert (upper input = key) as Hup.
  { rewrite (eq_ignore_case_upper _ _ Hcase). now apply (factor_table_upper key f). }
  assert (compound_performance_factor !! key = Some f) as Hf
    by now apply factor_table_lookup.
  split; [apply factor_table_lookup|]. split; [exact Hup|].
  split; [now rewrite Hup|].
  unfold simulate_stint. rewrite upper_idem, Hup, Hbase, Hf. auto.
Qed.

Lemma factor_ignores_case_witness :
  (eq_ignore_case "hard" "HARD" = true /\ eq_ignore_case "Hard" "HARD" = true /\
   eq_ignore_case "HARD" "HARD" = true) /\
  compound_performance_factor !! upper "Hard" = Some 1.058%Q /\
  simulate_stint Sample.steady {[ "HARD" := Some 94%Q ]} ("Hard", 1) 0
  = Ok ([TD (94 * 1.058 + (-0.005 + (0.005 - -0.005) * 0.5) * 94)%Q], 1%nat).
Proof.
  split; [repeat split|].
  pose proof (factor_ignores_case Sample.steady {[ "HARD" := Some 94%Q ]}
                "Hard" "HARD" 1.058%Q 1 0 (Some 94%Q) eq_refl
                ltac:(simpl; auto) eq_refl)
    as (_ & _ & Hf & _ & Hsim).
  split; [exact Hf | exact Hsim].
Defined.

(** C3 fails on the code: a compound outside the five offered ones is
    upper-cased and stored like any other, the plan is accepted, and the
    simulation then stops with [KeyError] on the factor dictionary. *)
Theorem unknown_compound_reaches_simulation :
  input_strategy (Some 3) ["2"; "Foo 1"; "Soft 2"]
  = (Ok [("FOO", 1); ("SOFT", 2)], []) /\
  simulate_lap_times Sample.steady (Sample.ready [("FOO", 1); ("SOFT", 2)]) "VER" 0
  = Raise (KeyError "FOO") /\
  run_simulation Sample.parse_duration (Some Sample.short_race) Sample.steady init
    ["ver"; "2"; "Foo 1"; "Soft 2"] 0
  = Raise (KeyError "FOO").
Proof. repeat split; vm_compute; reflexivity. Qed.

End SimulationProps.

(** * Properties of the actual race time *)

Module RaceAnalysisProps.
Import Py Pandas RaceAnalysis.

(** With a winner row in the table, [get_driver_race_time] returns to its
    caller. *)
Lemma get_driver_race_time_returns parse results code :
  at_position results 1 <> [] ->
  exists r, get_driver_race_time parse results code = Ok r.
Proof.
  intros Hw. unfold get_driver_race_time, get_winner_race_time.
  destruct (at_position results 1) as [|w ws]; [congruence|].
  cbn [iloc0 bind].
  destruct (to_timedelta parse (Time w)); [|eauto].
  destruct (String.eqb code (Abbreviation w)); [eauto|].
  destruct (with_code results code) as [|d ds]; [eauto|].
  destruct (to_timedelta parse (Time d)); eauto.
Qed.

(** C5: when the first row at position 1 has an elapsed time that parses,
    the winner's race time is that time, and the race time of any other
    driver whose recorded gap parses is the winner's time plus the gap. *)
Theorem actual_race_time_from_winner
    (parse : string -> option Timedelta) (results : list DriverResult)
    (w : DriverResult) (wt : Timedelta)
    (Hw : hd_error (at_position results 1) = Some w)
    (Hwt : to_timedelta parse (Time w) = Some wt) :
  get_driver_race_time parse results (Abbreviation w) = Ok (Some wt, []) /\
  forall code d gap,
    code <> Abbreviation w ->
    hd_error (with_code results code) = Some d ->
    to_timedelta parse (Time d) = Some gap ->
    get_driver_race_time parse results code = Ok (Some (td_add wt gap), []).
Proof.
  unfold get_driver_race_time, get_winner_race_time.
  destruct (at_position results 1) as [|w0 ws]; [discriminate|].
  simpl in Hw. inversion Hw; subst w0.
  cbn [iloc0 bind]. rewrite Hwt. split.
  - now rewrite String.eqb_refl.
  - intros code d gap Hne Hd Hgap.
    apply String.eqb_neq in Hne. rewrite Hne.
    destruct (with_code results code) as [|d0 ds]; [discriminate|].
    simpl in Hd. inversion Hd; subst d0. now rewrite Hgap.
Qed.

Lemma actual_race_time_from_winner_witness :
  get_driver_race_time Sample.parse_duration (results Sample.short_race) "VER"
  = Ok (Some (TD 5400), []) /\
  get_driver_race_time Sample.parse_duration (results Sample.short_race) "XXX"
  = Ok (Some (TD (5400 + 12.345)), []) /\
  (5400 + 12.345 == 5412.345)%Q.
Proof.
  pose proof (actual_race_time_from_winner Sample.parse_duration
                (results Sample.short_race)
                (Sample.mk_result "VER" "1" (Some 1) (CStr "1:30:00.000"))
                (TD 5400) eq_refl eq_refl) as [Hwin Hother].
  split; [exact Hwin|]. split; [|reflexivity].
  apply (Hother "XXX" (Sample.mk_result "XXX" "44" (Some 2) (CStr "+12.345s"))
           (TD 12.345)); [discriminate | reflexivity | reflexivity].
Defined.

(** C6 fails on the code: on a table without a row at position 1,
    [get_winner_race_time] reports the missing winner and returns [None],
    but [get_driver_race_time] has already indexed the empty selection and
    ends with [IndexError], which neither [compare_strategy] nor
    [run_simulation] handles. *)
Theorem no_winner_row_raises :
  get_winner_race_time Sample.parse_duration Sample.no_winner
  = (None, [WinnerTimeNotFound]) /\
  get_driver_race_time Sample.parse_duration Sample.no_winner "XXX"
  = Raise IndexError /\
  RaceStrategySimulator.run_simulation Sample.parse_duration
    (Some Sample.no_winner_race) Sample.steady RaceStrategySimulator.init
    ["XXX"; "2"; "Soft 1"; "Hard 1"] 0
  = Raise IndexError.
Proof. repeat split; vm_compute; reflexivity. Qed.

End RaceAnalysisProps.

(** * Facts about the race length and the completion gate *)

Module GateFacts.
Import Py Pandas RaceStrategySimulator Spec.

Lemma fold_max_spec : forall zs a,
  (fold_left Z.max zs a = a \/ In (fold_left Z.max zs a) zs) /\
  a <= fold_left Z.max zs a /\
  forall z, In z zs -> z <= fold_left Z.max zs a.
Proof.
  induction zs as [|x zs IH]; intros a; simpl.
  - repeat split; [now left | lia | contradiction].
  - destruct (IH (Z.max a x)) as (Hin & Hle & Hall).
    repeat split.
    + destruct Hin as [Heq|Hin]; [|now right; right].
      rewrite Heq. destruct (Z.max_spec a x) as [[_ ->]|[_ ->]]; auto.
    + lia.
    + intros z [<-|Hz]; [lia | now apply Hall].
Qed.

(** [col_max] is an element of the column and bounds all of it. *)
Lemma col_max_spec zs m :
  col_max zs = Some m -> In m zs /\ forall z, In z zs -> z <= m.
Proof.
  destruct zs as [|a zs]; simpl; [discriminate|].
  intros H. inversion H as [Hm]. clear H.
  destruct (fold_max_spec zs a) as (Hin & Hle & Hall).
  split.
  - destruct Hin as [->|Hin]; auto.
  - intros z [<-|Hz]; [exact Hle | now apply Hall].
Qed.

Lemma col_max_some zs : zs <> [] -> exists m, col_max zs = Some m.
Proof. destruct zs; [congruence | simpl; eauto]. Qed.

(** A duplicate-free list holding exactly the numbers 1 to [m] has [m]
    elements. *)
Lemma length_one_to (ns : list Z) (m : Z) :
  0 <= m -> List.NoDup ns -> (forall k, In k ns <-> 1 <= k <= m) ->
  Z.of_nat (length ns) = m.
Proof.
  intros Hm Hnd Hin.
  assert (Permutation ns (map Z.of_nat (seq 1 (Z.to_nat m)))) as Hperm.
  { apply Permutation.NoDup_Permutation; [exact Hnd | |].
    - apply Injective_map_NoDup; [|apply List.seq_NoDup].
      intros x y Hxy. lia.
    - intros k. rewrite Hin, in_map_iff. split.
      + intros Hk. exists (Z.to_nat k). rewrite in_seq. lia.
      + intros (i & <- & Hi). apply in_seq in Hi. lia. }
  apply Permutation_length in Hperm.
  rewrite Hperm, length_map, length_seq. lia.
Qed.

(** What the freshly loaded object looks like. *)
Lemma loaded_total_laps s :
  total_laps (load_and_initialize_data (Some s) init)
  = col_max (map LapNumber (laps s)).
Proof. reflexivity. Qed.

Lemma did_driver_finish_loaded s code :
  let self := with_driver_code (Some code) (load_and_initialize_data (Some s) init) in
  did_driver_finish self code
  = Ok (len_equals (laps_of code (laps s)) (col_max (map LapNumber (laps s))),
        ensure_lap_data self).
Proof. reflexivity. Qed.

Lemma len_equals_false rows total :
  total <> Some (Z.of_nat (length rows)) -> len_equals rows total = false.
Proof.
  unfold len_equals. destruct total as [n|]; [|reflexivity].
  intros H. apply Z.eqb_neq. congruence.
Qed.

End GateFacts.

(** * Properties of the race length and the completion gate *)

Module GateProps.
Import Py Pandas RaceStrategySimulator Spec GateFacts.

(** C7: on a fresh simulator, once the driver has been chosen, a number of
    lap records for that driver different from the race length ends
    [run_simulation] at the gate: the input after the driver prompt is left
    unread, no draw is made, the plan and the simulated times stay empty;
    and [simulate_lap_times] on its own returns no lap and makes no draw
    for such a driver, whatever plan is stored. *)
Theorem unfinished_driver_refused
    (parse : string -> option Timedelta) (rng : nat -> Q) (s : Session)
    (inp : list string) (cursor : nat) (code : string) (inp1 : list string)
    (Hask : ask_driver (num_to_abbreviation (results s))
              (abbreviation_to_num (results s)) inp = Ok (code, inp1))
    (Hlaps : col_max (map LapNumber (laps s))
             <> Some (Z.of_nat (length (laps_of code (laps s))))) :
  (exists self',
     run_simulation parse (Some s) rng init inp cursor
     = Ok (if String.eqb code "" then NoDriverCode else DidNotFinish,
           self', inp1, cursor) /\
     user_strategy self' = [] /\ simulated_lap_times self' = []) /\
  forall plan,
    exists self',
      simulate_lap_times rng
        (with_user_strategy plan
           (with_driver_code (Some code) (load_and_initialize_data (Some s) init)))
        code cursor
      = Ok ([], self', cursor).
Proof.
  apply len_equals_false in Hlaps.
  pose proof (did_driver_finish_loaded s code) as Hgate. cbv zeta in Hgate.
  rewrite Hlaps in Hgate. split.
  - unfold run_simulation. cbn [analysis init].
    set (self0 := load_and_initialize_data (Some s) init) in *.
    change (analysis self0) with (Some (results s)). cbv iota.
    unfold get_drivers.
    change (session self0) with (Some s). cbv iota.
    change (get_race_data self0) with (Some (results s)). cbv iota.
    rewrite Hask. cbn [bind].
    destruct (String.eqb code "") eqn:Hcode.
    + eexists. split; [reflexivity|]. split; reflexivity.
    + rewrite Hgate. cbn [bind negb].
      eexists. split; [reflexivity|]. split; reflexivity.
  - intros plan. eexists.
    apply SimulationFacts.simulate_lap_times_unfinished.
    change (did_driver_finish
              (with_user_strategy plan
                 (with_driver_code (Some code)
                    (load_and_initialize_data (Some s) init))) code)
      with (Ok (len_equals (laps_of code (laps s))
                  (col_max (map LapNumber (laps s))),
                ensure_lap_data
                  (with_user_strategy plan
                     (with_driver_code (Some code)
                        (load_and_initialize_data (Some s) init))))).
    now rewrite Hlaps.
Qed.

Lemma unfinished_driver_refused_witness :
  exists self',
    run_simulation Sample.parse_duration (Some Sample.long_race) Sample.steady init
      ["dnf"; "2"; "Soft 20"; "Medium 38"] 0
    = Ok (DidNotFinish, self', ["2"; "Soft 20"; "Medium 38"], 0%nat) /\
    user_strategy self' = [] /\ simulated_lap_times self' = [].
Proof.
  apply (unfinished_driver_refused Sample.parse_duration Sample.steady
           Sample.long_race ["dnf"; "2"; "Soft 20"; "Medium 38"] 0 "DNF"
           ["2"; "Soft 20"; "Medium 38"]).
  - vm_compute. reflexivity.
  - vm_compute. discriminate.
Defined.

(** C10: after loading a session with at least one lap record, the race
    length is the largest lap number of the lap table: some record carries
    it and none exceeds it; every accepted plan adds up to it; and a driver
    who reaches it with exactly one record for each lap from 1 on passes
    the completion gate. *)
Theorem race_length_is_max_lap_number (s : Session) (Hne : laps s <> []) :
  exists m,
    total_laps (load_and_initialize_data (Some s) init) = Some m /\
    (exists l, In l (laps s) /\ LapNumber l = m) /\
    (forall l, In l (laps s) -> LapNumber l <= m) /\
    (forall inp plan rest,
       input_strategy (total_laps (load_and_initialize_data (Some s) init)) inp
       = (Ok plan, rest) ->
       strategy_laps plan = m) /\
    (forall d,
       In m (lap_numbers d (laps s)) ->
       one_record_per_lap d (laps s) m ->
       exists self',
         did_driver_finish
           (with_driver_code (Some d) (load_and_initialize_data (Some s) init)) d
         = Ok (true, self')).
Proof.
  destruct (col_max_some (map LapNumber (laps s))) as [m Hm].
  { destruct (laps s); [congruence | discriminate]. }
  exists m. rewrite loaded_total_laps.
  destruct (col_max_spec _ _ Hm) as [Hin Hall].
  split; [exact Hm|]. split; [|split; [|split]].
  - apply in_map_iff in Hin as (l & Hl & Hinl). eauto.
  - intros l Hl. apply Hall. now apply in_map.
  - intros inp plan rest H.
    apply EntryFacts.input_strategy_ok in H as [inp' H].
    apply EntryFacts.attempt_accepted in H as (_ & _ & _ & Hsum).
    congruence.
  - intros d Hreach [Hnd Hrange].
    rewrite did_driver_finish_loaded. eexists. f_equal. f_equal.
    unfold len_equals. rewrite Hm. apply Z.eqb_eq.
    assert (1 <= m) as Hpos by (apply Hrange in Hreach; lia).
    rewrite <- (length_map LapNumber).
    apply (length_one_to (lap_numbers d (laps s)) m); [lia | exact Hnd | exact Hrange].
Qed.

Lemma race_length_is_max_lap_number_witness :
  laps Sample.short_race <> [] /\
  total_laps (load_and_initialize_data (Some Sample.short_race) init) = Some 3 /\
  exists self',
    did_driver_finish
      (with_driver_code (Some "VER")
         (load_and_initialize_data (Some Sample.short_race) init)) "VER"
    = Ok (true, self').
Proof.
  split; [discriminate|].
  destruct (race_length_is_max_lap_number Sample.short_race ltac:(discriminate))
    as (m & Hm & _ & _ & _ & Hgate).
  assert (m = 3) as -> by (vm_compute in Hm; congruence).
  split; [exact Hm|].
  apply Hgate.
  - simpl. auto.
  - split.
    + repeat constructor; simpl; intuition discriminate.
    + intros k. simpl. lia.
Defined.

End GateProps.

(** * Facts about the stint table *)

Module StintFacts.
Import Py Pandas RaceAnalysis Spec.

#[local] Arguments stint_key_dec : simpl never.

Lemma stint_key_leb_total a b : stint_key_leb a b = false -> stint_key_leb b a = true.
Proof.
  destruct a as [[d1 s1] c1], b as [[d2 s2] c2]. unfold stint_key_leb.
  rewrite (String.compare_antisym d2 d1).
  destruct (String.compare d1 d2) eqn:Hd; simpl; try discriminate; [|reflexivity].
  rewrite (Z.compare_antisym s1 s2).
  destruct (Z.compare s1 s2) eqn:Hs; simpl; try discriminate; [|reflexivity].
  intros Hc. destruct (String.leb_total c1 c2) as [H|H]; congruence.
Qed.

Lemma insert_key_perm k ks : Permutation (insert_key k ks) (k :: ks).
Proof.
  induction ks as [|k' ks IH]; simpl; [reflexivity|].
  destruct (stint_key_leb k k'); [reflexivity|].
  rewrite IH. apply perm_swap.
Qed.

Lemma sort_keys_perm ks : Permutation (sort_keys ks) ks.
Proof.
  induction ks as [|k ks IH]; simpl; [reflexivity|].
  rewrite insert_key_perm. now constructor.
Qed.

Lemma insert_key_hd k k0 ks :
  key_le k0 k -> HdRel key_le k0 ks -> HdRel key_le k0 (insert_key k ks).
Proof.
  intros Hk Hhd. destruct ks as [|k' ks]; simpl.
  - now constructor.
  - destruct (stint_key_leb k k'); constructor; [assumption|].
    now inversion Hhd.
Qed.

Lemma insert_key_sorted k ks : Sorted key_le ks -> Sorted key_le (insert_key k ks).
Proof.
  induction 1 as [|k' ks Hs IH Hhd]; simpl.
  - repeat constructor.
  - destruct (stint_key_leb k k') eqn:Hle.
    + constructor; [now constructor | now constructor].
    + constructor; [exact IH|].
      apply insert_key_hd; [|exact Hhd].
      now apply stint_key_leb_total.
Qed.

Lemma sort_keys_sorted ks : Sorted key_le (sort_keys ks).
Proof.
  induction ks as [|k ks IH]; simpl; [constructor|].
  now apply insert_key_sorted.
Qed.

Lemma group_keys_In ks k : In k (group_keys ks) <-> In k ks.
Proof.
  unfold group_keys. rewrite <- (nodup_In stint_key_dec ks k). split.
  - apply Permutation_in, sort_keys_perm.
  - apply Permutation_in. symmetry. apply sort_keys_perm.
Qed.

Lemma group_keys_NoDup ks : List.NoDup (group_keys ks).
Proof.
  unfold group_keys.
  eapply Permutation_NoDup; [symmetry; apply sort_keys_perm|].
  apply NoDup_nodup.
Qed.

(** A key of the column is the key of a complete lap record. *)
Lemma complete_keys_In laps k :
  In k (complete_keys laps) <->
  exists l c, In l laps /\ Compound l = Some c /\ k = (Driver l, Stint l, c).
Proof.
  unfold complete_keys. rewrite in_flat_map. split.
  - intros (l & Hl & Hk). destruct (Compound l) as [c|] eqn:Hc; [|contradiction].
    destruct Hk as [<-|[]]. eauto.
  - intros (l & c & Hl & Hc & ->). exists l. split; [exact Hl|].
    rewrite Hc. now left.
Qed.

(** Counting a key in the column is counting the lap records of the
    group. *)
Lemma count_complete_keys laps k :
  count_occ stint_key_dec (complete_keys laps) k = length (laps_in_group k laps).
Proof.
  induction laps as [|l laps IH]; [reflexivity|].
  unfold complete_keys, laps_in_group in *. cbn [flat_map List.filter].
  destruct (Compound l) as [c|]; [|exact IH].
  cbn [app count_occ].
  destruct (stint_key_dec (Driver l, Stint l, c) k); cbn [length]; now rewrite IH.
Qed.

Lemma sum_counts_cons x col (ks : list stint_key) :
  fold_right Z.add 0
    (map (fun k => Z.of_nat (count_occ stint_key_dec (x :: col) k)) ks)
  = fold_right Z.add 0 (map (fun k => Z.of_nat (count_occ stint_key_dec col k)) ks)
    + Z.of_nat (count_occ stint_key_dec ks x).
Proof.
  induction ks as [|k ks IH]; [reflexivity|].
  cbn [map fold_right]. rewrite IH. simpl count_occ.
  destruct (stint_key_dec x k) as [->|Hne].
  - destruct (stint_key_dec k k); [lia | congruence].
  - destruct (stint_key_dec k x); [congruence | lia].
Qed.

Lemma count_occ_filter (p : stint_key -> bool) x (ks : list stint_key) :
  count_occ stint_key_dec (List.filter p ks) x
  = if p x then count_occ stint_key_dec ks x else 0%nat.
Proof.
  induction ks as [|k ks IH]; simpl; [now destruct (p x)|].
  destruct (p k) eqn:Hk; simpl; rewrite IH;
    destruct (stint_key_dec k x) as [->|]; try rewrite Hk; now destruct (p x).
Qed.

(** Over a duplicate-free list of keys that covers the column, the counts
    of the keys selected by [p] add up to the entries selected by [p]. *)
Lemma sum_counts (p : stint_key -> bool) (ks : list stint_key) :
  List.NoDup ks -> forall col,
  (forall k, In k col -> In k ks) ->
  fold_right Z.add 0
    (map (fun k => Z.of_nat (count_occ stint_key_dec col k)) (List.filter p ks))
  = Z.of_nat (length (List.filter p col)).
Proof.
  intros Hnd. induction col as [|x col IH]; intros Hcov.
  - simpl. induction (List.filter p ks) as [|k l IHl]; simpl; [reflexivity|].
    now rewrite IHl.
  - rewrite sum_counts_cons, IH by (intros k Hk; apply Hcov; now right).
    rewrite count_occ_filter.
    assert (count_occ stint_key_dec ks x = 1%nat) as Hone.
    { apply NoDup_count_occ'; [exact Hnd | apply Hcov; now left]. }
    simpl. destruct (p x); simpl; lia.
Qed.

Lemma analyze_rows laps :
  analyze_stint_and_compound_data (Some laps)
  = Some (map (make_row (complete_keys laps)) (group_keys (complete_keys laps))).
Proof. reflexivity. Qed.

Lemma row_key_make_row col k : row_key (make_row col k) = k.
Proof. now destruct k as [[d s] c]. Qed.

Lemma row_keys_make_row col ks : map row_key (map (make_row col) ks) = ks.
Proof.
  rewrite map_map. rewrite <- (map_id ks) at 2.
  apply map_ext. apply row_key_make_row.
Qed.

Lemma stint_length_make_row col k :
  Stints.StintLength (make_row col k) = Z.of_nat (count_occ stint_key_dec col k).
Proof. now destruct k as [[d s] c]. Qed.

Lemma filter_map_swap {A B} (f : B -> bool) (g : A -> B) (l : list A) :
  List.filter f (map g l) = map g (List.filter (fun x => f (g x)) l).
Proof.
  induction l as [|x l IH]; simpl; [reflexivity|].
  destruct (f (g x)); simpl; now rewrite IH.
Qed.

(** The keys of a driver in the column are the driver's lap records with
    a compound. *)
Lemma driver_keys_length d laps :
  length (List.filter (fun k : stint_key => String.eqb (fst (fst k)) d)
            (complete_keys laps))
  = length (laps_with_compound d laps).
Proof.
  induction laps as [|l laps IH]; [reflexivity|].
  unfold complete_keys, laps_with_compound in *. cbn [flat_map List.filter].
  destruct (Compound l) as [c|]; cbn [app List.filter fst].
  - destruct (String.eqb (Driver l) d); cbn [andb length]; now rewrite IH.
  - rewrite andb_false_r. exact IH.
Qed.

(** The stint lengths of a driver add up to the driver's lap records with
    a compound. *)
Lemma driver_stint_total laps d :
  stint_total
    (List.filter (fun r => String.eqb (Stints.Driver r) d)
       (map (make_row (complete_keys laps)) (group_keys (complete_keys laps))))
  = Z.of_nat (length (laps_with_compound d laps)).
Proof.
  rewrite filter_map_swap. unfold stint_total. rewrite map_map.
  rewrite <- driver_keys_length.
  rewrite <- (sum_counts (fun k => String.eqb (fst (fst k)) d)
                (group_keys (complete_keys laps)) (group_keys_NoDup _)
                (complete_keys laps))
    by (intros k Hk; now apply group_keys_In).
  f_equal.
  transitivity
    (map (fun k => Z.of_nat (count_occ stint_key_dec (complete_keys laps) k))
       (List.filter (fun k => String.eqb (Stints.Driver (make_row (complete_keys laps) k)) d)
          (group_keys (complete_keys laps)))).
  - apply map_ext. intros k. apply stint_length_make_row.
  - f_equal. apply filter_ext. intros [[d0 s0] c0]. reflexivity.
Qed.

End StintFacts.

(** * Properties of the stint table *)

Module StintProps.
Import Py Pandas RaceAnalysis Spec StintFacts.

(** The table of [analyze_stint_and_compound_data] lists every (driver,
    stint, compound) group once, in the order driver, stint, compound, and
    no group is empty. *)
Theorem stint_groups_sorted_and_distinct (laps : list LapRecord) :
  exists rows,
    analyze_stint_and_compound_data (Some laps) = Some rows /\
    List.NoDup (map row_key rows) /\
    Sorted key_le (map row_key rows) /\
    Forall (fun r => 1 <= Stints.StintLength r) rows.
Proof.
  eexists. split; [apply analyze_rows|].
  rewrite row_keys_make_row.
  split; [apply group_keys_NoDup|]. split; [apply sort_keys_sorted|].
  apply List.Forall_forall. intros r Hr.
  apply in_map_iff in Hr as (k & <- & Hk).
  rewrite stint_length_make_row.
  rewrite group_keys_In in Hk.
  rewrite (count_occ_In stint_key_dec) in Hk. lia.
Qed.

(** A group is in the table exactly when some lap record with a compound
    belongs to it, and its [StintLength] is the number of those records. *)
Theorem stint_length_counts_group
    (laps : list LapRecord) (rows : list Stints.row)
    (H : analyze_stint_and_compound_data (Some laps) = Some rows) :
  (forall k, In k (map row_key rows) <-> laps_in_group k laps <> []) /\
  (forall r, In r rows ->
     Stints.StintLength r = Z.of_nat (length (laps_in_group (row_key r) laps))).
Proof.
  rewrite analyze_rows in H. inversion H; subst. clear H. split.
  - intros k. rewrite row_keys_make_row, group_keys_In.
    rewrite (count_occ_In stint_key_dec), count_complete_keys.
    destruct (laps_in_group k laps); simpl; split; intros; try congruence; lia.
  - intros r Hr. apply in_map_iff in Hr as (k & <- & _).
    now rewrite stint_length_make_row, row_key_make_row, count_complete_keys.
Qed.

Lemma stint_length_counts_group_witness :
  analyze_stint_and_compound_data (Some (laps Sample.two_stint_race))
  = Some [ {| Stints.Driver := "VER"; Stints.Stint := 1; Stints.Compound := "SOFT";
              Stints.StintLength := 2 |};
           {| Stints.Driver := "VER"; Stints.Stint := 2; Stints.Compound := "HARD";
              Stints.StintLength := 1 |};
           {| Stints.Driver := "XXX"; Stints.Stint := 1; Stints.Compound := "HARD";
              Stints.StintLength := 2 |} ] /\
  2 = Z.of_nat (length (laps_in_group ("VER", 1, "SOFT") (laps Sample.two_stint_race))).
Proof.
  split; [reflexivity|].
  pose proof (stint_length_counts_group (laps Sample.two_stint_race) _ eq_refl)
    as [_ Hlen].
  apply (Hlen {| Stints.Driver := "VER"; Stints.Stint := 1; Stints.Compound := "SOFT";
                 Stints.StintLength := 2 |}).
  simpl. auto.
Defined.

(** The stint lengths of a driver add up to the number of that driver's
    lap records that carry a compound. *)
Theorem stint_lengths_sum_to_driver_laps
    (laps : list LapRecord) (rows : list Stints.row) (d : string)
    (H : analyze_stint_and_compound_data (Some laps) = Some rows) :
  stint_total (List.filter (fun r => String.eqb (Stints.Driver r) d) rows)
  = Z.of_nat (length (laps_with_compound d laps)).
Proof.
  rewrite analyze_rows in H. inversion H; subst. clear H.
  apply driver_stint_total.
Qed.

Lemma stint_lengths_sum_to_driver_laps_witness :
  stint_total
    (List.filter (fun r => String.eqb (Stints.Driver r) "XXX")
       [ {| Stints.Driver := "VER"; Stints.Stint := 1; Stints.Compound := "SOFT";
            Stints.StintLength := 2 |};
         {| Stints.Driver := "VER"; Stints.Stint := 2; Stints.Compound := "HARD";
            Stints.StintLength := 1 |};
         {| Stints.Driver := "XXX"; Stints.Stint := 1; Stints.Compound := "HARD";
            Stints.StintLength := 2 |} ])
  = Z.of_nat (length (laps_with_compound "XXX" (laps Sample.two_stint_race))) /\
  length (laps_with_compound "XXX" (laps Sample.two_stint_race)) = 2%nat /\
  length (RaceStrategySimulator.laps_of "XXX" (laps Sample.two_stint_race)) = 3%nat.
Proof.
  split; [|split; reflexivity].
  apply (stint_lengths_sum_to_driver_laps (laps Sample.two_stint_race) _ "XXX").
  reflexivity.
Defined.

End StintProps.

(** * Further properties of the actual race time *)

Module RaceTimeProps.
Import Py Pandas RaceAnalysis.

(** [get_driver_position] answers for [get_driver_race_time]: without a
    row at position 1 the race time of any driver ends in [IndexError];
    with one it always returns, and a driver other than the winner whom
    [get_driver_results] does not find gets [None] and the report that no
    results were found (the winner's time parsing). *)
Theorem winner_lookup_decides_race_time
    (parse : string -> option Timedelta) (results : list DriverResult)
    (code : string) :
  (get_driver_position results 1 = None ->
   get_driver_race_time parse results code = Raise IndexError) /\
  (forall w, get_driver_position results 1 = Some w ->
     (exists r, get_driver_race_time parse results code = Ok r) /\
     (forall wt, to_timedelta parse (Time w) = Some wt ->
        code <> Abbreviation w ->
        get_driver_results results code = None ->
        get_driver_race_time parse results code = Ok (None, [DriverNotFound]))).
Proof.
  unfold get_driver_position, get_driver_results, get_driver_race_time,
    get_winner_race_time.
  destruct (at_position results 1) as [|w0 ws]; simpl.
  - split; [reflexivity | discriminate].
  - split; [discriminate|]. intros w Hw. inversion Hw; subst w0. split.
    + destruct (to_timedelta parse (Time w)); [|eauto].
      destruct (String.eqb code (Abbreviation w)); [eauto|].
      destruct (with_code results code) as [|d ds]; [eauto|].
      destruct (to_timedelta parse (Time d)); eauto.
    + intros wt Hwt Hne Hnone. rewrite Hwt.
      apply String.eqb_neq in Hne. rewrite Hne.
      destruct (with_code results code); [reflexivity | discriminate].
Qed.

(** Whenever [get_driver_race_time] returns, it returns [None] exactly
    when it has printed a report. *)
Theorem race_time_none_iff_reported
    (parse : string -> option Timedelta) (results : list DriverResult)
    (code : string) (v : option Timedelta) (out : list report)
    (H : get_driver_race_time parse results code = Ok (v, out)) :
  v = None <-> out <> [].
Proof.
  unfold get_driver_race_time, get_winner_race_time in H.
  destruct (at_position results 1) as [|w ws]; [discriminate|].
  cbn [iloc0 bind] in H.
  destruct (to_timedelta parse (Time w)).
  - destruct (String.eqb code (Abbreviation w)).
    + inversion H; subst. split; congruence.
    + destruct (with_code results code) as [|d ds].
      * inversion H; subst. split; [discriminate | reflexivity].
      * destruct (to_timedelta parse (Time d)); inversion H; subst;
          split; try congruence; discriminate.
  - inversion H; subst. split; [discriminate | reflexivity].
Qed.

Lemma race_time_none_iff_reported_witness :
  get_driver_race_time Sample.parse_duration (results Sample.short_race) "DNF"
  = Ok (Some NaT, []) /\
  get_driver_race_time Sample.parse_duration (results Sample.short_race) "ZZZ"
  = Ok (None, [DriverNotFound]) /\
  (@None Timedelta = None <-> [DriverNotFound] <> []).
Proof.
  split; [reflexivity|]. split; [reflexivity|].
  apply (race_time_none_iff_reported Sample.parse_duration
           (results Sample.short_race) "ZZZ").
  reflexivity.
Defined.

End RaceTimeProps.

(** * Further facts about the simulation *)

Module RunFacts.
Import Py Pandas RaceStrategySimulator Spec PyFacts SimulationFacts.


Lemma ensure_lap_data_idem self :
  ensure_lap_data (ensure_lap_data self) = ensure_lap_data self.
Proof.
  unfold ensure_lap_data at 1.
  destruct (lap_data (ensure_lap_data self)) eqn:H; [reflexivity|].
  unfold ensure_lap_data in H.
  destruct (lap_data self) eqn:E; simpl in H; congruence.
Qed.



Section Sampling.
Variable rng : nat -> Q.

(** A stint either is sampled or stops on its compound. *)
Lemma simulate_stint_cases avgs stint cursor base :
  avgs !! upper (fst stint) = Some base ->
  simulate_stint rng avgs stint cursor
  = match compound_performance_factor !! upper (fst stint) with
    | Some f =>
        Ok (sample_laps rng (Z.to_nat (snd stint)) (fmul base (Some f)) base cursor)
    | None => Raise (KeyError (upper (fst stint)))
    end.
Proof.
  destruct stint as [c n]. cbn [fst snd]. intros Hb.
  unfold simulate_stint. now rewrite Hb.
Qed.



(** A stint of a plan that ran through has a factor if it has a baseline. *)
Lemma simulate_plan_ok_stint avgs : forall plan cursor r stint,
  simulate_plan rng avgs plan cursor = Ok r ->
  In stint plan ->
  is_Some (avgs !! upper (fst stint)) ->
  known_compound stint.
Proof.
  induction plan as [|s0 plan IH]; intros cursor r stint H Hin [base Hb];
    [contradiction|].
  cbn [simulate_plan] in H.
  destruct (simulate_stint rng avgs s0 cursor) as [[ts cur1]|e] eqn:Hst;
    [|discriminate].
  cbn [bind] in H.
  destruct (simulate_plan rng avgs plan cur1) as [r'|e'] eqn:Hp; [|discriminate].
  destruct Hin as [->|Hin].
  - rewrite (simulate_stint_cases avgs stint cursor base Hb) in Hst.
    unfold known_compound.
    destruct (compound_performance_factor !! upper (fst stint)); [eauto | discriminate].
  - eapply IH; eauto.
Qed.


End Sampling.

(** The laps of a plan with no negative count. *)
Lemma planned_laps_length plan :
  Forall (fun stint => 0 <= snd stint) plan ->
  Z.of_nat (length (planned_laps plan)) = strategy_laps plan.
Proof.
  induction 1 as [|[c n] plan Hn _ IH]; [reflexivity|].
  unfold planned_laps, strategy_laps in *. cbn [flat_map map fold_right fst snd].
  rewrite length_app, repeat_length, Nat2Z.inj_add, IH. simpl in Hn. lia.
Qed.


Lemma planned_laps_In plan c :
  In c (planned_laps plan) -> exists stint, In stint plan /\ c = upper (fst stint).
Proof.
  unfold planned_laps. rewrite in_flat_map.
  intros (stint & Hin & Hc). apply repeat_spec in Hc. eauto.
Qed.

Lemma factor_table_bounds k f :
  In (k, f) factor_table -> (1.018 <= f)%Q /\ (f <= 1.098)%Q.
Proof.
  intros H. simpl in H. decompose [or] H; try contradiction;
    match goal with E : (_, _) = (_, _) |- _ => inversion E; subst end;
    split; discriminate.
Qed.

End RunFacts.

(** * Further properties of the simulation *)

Module RunProps.
Import Py Pandas RaceStrategySimulator Spec PyFacts SimulationFacts RunFacts.



(** When the driver has laps on a compound of the plan, compared without
    regard to case, the baseline of that compound is the mean lap time of
    those laps. *)
Theorem baseline_is_driver_compound_mean
    (self : t) (code : string) (avgs : gmap string float) (self' : t)
    (ld : list LapRecord) (c : string)
    (Havg : calculate_driver_averages self code = Ok (avgs, self'))
    (Hld : get_lap_data self = Some ld)
    (Hplan : In c (map fst (user_strategy self)))
    (Hsome : compound_laps_of code (upper c) ld <> []) :
  avgs !! upper c
  = Some (total_seconds (mean (map LapTime (compound_laps_of code (upper c) ld)))).
Proof.
  rewrite (calculate_driver_averages_ok self code ld Hld) in Havg.
  inversion Havg; subst.
  rewrite averages_lookup by now apply in_map_upper_fst.
  unfold baseline. now destruct (compound_laps_of code (upper c) ld).
Qed.

Lemma baseline_is_driver_compound_mean_witness :
  exists avgs self' b,
    calculate_driver_averages (Sample.ready [("soft", 2); ("Hard", 1)]) "VER"
    = Ok (avgs, self') /\
    avgs !! "SOFT" = Some (Some b) /\ (b == 91)%Q.
Proof.
  pose proof (calculate_driver_averages_ok (Sample.ready [("soft", 2); ("Hard", 1)])
                "VER" (laps Sample.short_race) eq_refl) as Havg.
  pose proof (baseline_is_driver_compound_mean _ _ _ _ (laps Sample.short_race)
                "soft" Havg eq_refl ltac:(simpl; auto) ltac:(discriminate)) as Hb.
  eexists. eexists. eexists.
  split; [exact Havg|]. split; [exact Hb | reflexivity].
Defined.



(** A plan that [input_strategy] accepted for a race of [m] laps is
    simulated with exactly [m] durations and [m] draws. *)
Theorem accepted_plan_simulates_race_length
    (rng : nat -> Q) (avgs : gmap string float) (m : Z)
    (inp rest : list string) (plan : strategy)
    (cursor : nat) (times : list Timedelta) (cursor' : nat)
    (Hacc : input_strategy (Some m) inp = (Ok plan, rest))
    (Hsim : simulate_plan rng avgs plan cursor = Ok (times, cursor')) :
  length times = Z.to_nat m /\ cursor' = (cursor + Z.to_nat m)%nat.
Proof.
  apply EntryFacts.input_strategy_ok in Hacc as [inp' Hacc].
  apply EntryFacts.attempt_accepted in Hacc as (_ & Hpos & _ & Hsum).
  apply simulate_plan_ok in Hsim as (-> & -> & _).
  assert (Z.of_nat (length (planned_laps plan)) = m) as Hlen.
  { rewrite planned_laps_length; [congruence|].
    eapply List.Forall_impl; [|exact Hpos]. unfold positive_laps. intros; lia. }
  split; lia.
Qed.

Lemma accepted_plan_simulates_race_length_witness :
  exists times,
    input_strategy (Some 3) ["2"; "Soft 2"; "Hard 1"] = (Ok [("SOFT", 2); ("HARD", 1)], []) /\
    simulate_plan Sample.steady {[ "SOFT" := Some 91%Q; "HARD" := Some 94%Q ]}
      [("SOFT", 2); ("HARD", 1)] 5 = Ok (times, 8%nat) /\
    length times = 3%nat.
Proof.
  destruct (simulate_plan Sample.steady {[ "SOFT" := Some 91%Q; "HARD" := Some 94%Q ]}
              [("SOFT", 2); ("HARD", 1)] 5) as [[times cur]|e] eqn:Hsim;
    [|vm_compute in Hsim; discriminate].
  destruct (accepted_plan_simulates_race_length Sample.steady _ 3
              ["2"; "Soft 2"; "Hard 1"] [] _ 5 times cur eq_refl Hsim) as [Hlen ->].
  exists times. split; [reflexivity|]. split; [reflexivity | exact Hlen].
Defined.

(** With draws from [[0, 1)] and a positive baseline [b], every simulated
    lap lasts at least [1.013 b] and less than [1.103 b]: it is slower
    than the baseline it was sampled around. *)
Theorem sampled_lap_slower_than_baseline
    (rng : nat -> Q) (avgs : gmap string float) (plan : strategy)
    (cursor : nat) (times : list Timedelta) (cursor' : nat)
    (k : nat) (c : string) (b : Q)
    (Hrng : forall i, (0 <= rng i)%Q /\ (rng i < 1)%Q)
    (Hsim : simulate_plan rng avgs plan cursor = Ok (times, cursor'))
    (Hk : nth_error (planned_laps plan) k = Some c)
    (Hb : avgs !! c = Some (Some b))
    (Hpos : (0 < b)%Q) :
  exists d, nth_error times k = Some (TD d) /\
            (1.013 * b <= d)%Q /\ (d < 1.103 * b)%Q /\ (b < d)%Q.
Proof.
  destruct (planned_laps_In plan c (nth_error_In _ _ Hk)) as (stint & Hin & ->).
  destruct (simulate_plan_ok_stint rng avgs plan cursor _ stint Hsim Hin
              ltac:(eauto)) as [f Hfac].
  destruct (factor_table_bounds _ f (proj1 (factor_table_lookup _ _) Hfac))
    as [Hflo Hfhi].
  destruct (simulate_plan_ok rng avgs plan cursor times cursor' Hsim)
    as (_ & _ & Hnth).
  specialize (Hnth k _ (Some b) f Hk Hb Hfac). simpl in Hnth.
  destruct (Hrng (cursor + k)%nat) as [H0 H1].
  destruct (uniform_range rng (cursor + k)%nat H0 H1) as [Hlo Hhi].
  destruct (deviation_range _ b Hpos Hlo Hhi) as [Hdlo Hdhi].
  eexists. split; [exact Hnth|].
  assert (1.018 * b <= b * f)%Q as Hbf_lo
    by (rewrite (Qmult_comm b f); now apply Qmult_le_compat_r; [|apply Qlt_le_weak]).
  assert (b * f <= 1.098 * b)%Q as Hbf_hi
    by (rewrite (Qmult_comm b f); now apply Qmult_le_compat_r; [|apply Qlt_le_weak]).
  repeat split; lra.
Qed.

Lemma sampled_lap_slower_than_baseline_witness :
  exists times d,
    simulate_plan Sample.steady {[ "SOFT" := Some 91%Q; "HARD" := Some 94%Q ]}
      [("SOFT", 2); ("HARD", 1)] 0 = Ok (times, 3%nat) /\
    nth_error times 2 = Some (TD d) /\ (94 < d)%Q.
Proof.
  set (avgs := ({[ "SOFT" := Some 91%Q; "HARD" := Some 94%Q ]} : gmap string float)).
  set (plan := [("SOFT", 2); ("HARD", 1)]).
  destruct (simulate_plan Sample.steady avgs plan 0) as [[times cur]|e] eqn:Hsim;
    [|vm_compute in Hsim; discriminate].
  assert (cur = 3%nat) as -> by (vm_compute in Hsim; congruence).
  assert (forall i, (0 <= Sample.steady i)%Q /\ (Sample.steady i < 1)%Q) as Hrng.
  { intros i. split; [discriminate | reflexivity]. }
  assert (nth_error (planned_laps plan) 2 = Some "HARD") as Hk by reflexivity.
  assert (avgs !! "HARD" = Some (Some 94%Q)) as Hb by (vm_compute; reflexivity).
  destruct (sampled_lap_slower_than_baseline Sample.steady avgs plan 0 times 3 2
              "HARD" 94 Hrng Hsim Hk Hb eq_refl) as (d & Hd & _ & _ & Hslow).
  exists times, d. split; [reflexivity|]. split; assumption.
Defined.

End RunProps.

(** * Further facts about strategy entry *)

Module EntryMoreFacts.
Import Py Pandas RaceStrategySimulator Spec PyFacts EntryFacts.

#[local] Arguments String.append : simpl nomatch.

Lemma unread_refl (inp : list string) : unread inp inp.
Proof. now exists []. Qed.

Lemma unread_nil (inp : list string) : unread [] inp.
Proof. exists inp. now rewrite app_nil_r. Qed.

Lemma unread_cons line (rest inp : list string) :
  unread rest inp -> unread rest (line :: inp).
Proof. intros [pre ->]. now exists (line :: pre). Qed.

Lemma unread_trans (a b c : list string) : unread a b -> unread b c -> unread a c.
Proof. intros [p ->] [q ->]. exists (q ++ p)%list. now rewrite app_assoc. Qed.

Lemma read_stints_unread : forall inp n acc,
  unread (snd (read_stints inp n acc)) inp.
Proof.
  induction inp as [|line inp IH]; intros n acc.
  - destruct n; apply unread_nil.
  - destruct n as [|n]; [apply unread_refl|]. simpl.
    destruct (split line) as [|compound [|count [|x l]]];
      try (apply unread_cons, unread_refl).
    destruct (py_int count) as [k|]; [|apply unread_cons, unread_refl].
    destruct (k <=? 0); apply unread_cons, IH.
Qed.

Lemma attempt_unread total inp : unread (snd (attempt total inp)) inp.
Proof.
  destruct inp as [|line rest]; [apply unread_nil|]. simpl.
  destruct (py_int line) as [n|]; [|apply unread_cons, unread_refl].
  destruct (n <? 2); [apply unread_cons, unread_refl|].
  pose proof (read_stints_unread rest (Z.to_nat n) []) as Hu.
  destruct (read_stints rest (Z.to_nat n) []) as [[s|e] rest']; simpl in *.
  - destruct (laps_differ _ _); now apply unread_cons.
  - destruct e; now apply unread_cons.
Qed.

(** Reading the lines of enterable stints one after the other. *)
Lemma read_stints_prefix : forall pre n acc rest,
  Forall enterable pre -> (length pre <= n)%nat ->
  read_stints (map stint_line pre ++ rest)%list n acc
  = read_stints rest (n - length pre) (acc ++ entered pre)%list.
Proof.
  induction pre as [|[c k] pre IH]; intros n acc rest Hwf Hlen.
  - cbn [map app length entered]. now rewrite Nat.sub_0_r, app_nil_r.
  - inversion Hwf as [|x l [Hc [Hne Hk]] Hrest]; subst. simpl in Hc, Hne, Hk.
    destruct n as [|n]; [simpl in Hlen; lia|].
    cbn [map length app read_stints]. unfold stint_line at 1. cbn [fst snd].
    rewrite split_two by auto using no_space_str_of_Z, str_of_Z_nonempty.
    rewrite py_int_str_of_Z.
    replace (k <=? 0) with false by (symmetry; apply Z.leb_gt; lia).
    rewrite IH by (simpl in Hlen; auto; lia).
    cbn [entered map fst snd Nat.sub]. now rewrite <- app_assoc.
Qed.

(** A pass is decided by its result on the stints. *)
Lemma attempt_stints total (n : nat) lines :
  (2 <= n)%nat ->
  attempt total (str_of_Z (Z.of_nat n) :: lines)
  = match read_stints lines n [] with
    | (Ok s, rest') =>
        if laps_differ (strategy_laps s) total
        then (LapsMismatch s, rest') else (Accepted s, rest')
    | (Raise EOFError, rest') => (EndOfInput, rest')
    | (Raise _, rest') => (InvalidInput, rest')
    end.
Proof.
  intros Hn. cbn [attempt]. rewrite py_int_str_of_Z.
  replace (Z.of_nat n <? 2) with false by (symmetry; apply Z.ltb_ge; lia).
  now rewrite Nat2Z.id.
Qed.

End EntryMoreFacts.

(** * Further properties of strategy entry *)

Module EntryMoreProps.
Import Py Pandas RaceStrategySimulator Spec PyFacts EntryFacts EntryMoreFacts.

(** Whatever is typed, [input_strategy] ends in one of two ways: it
    returns an accepted plan, or the input ends and [EOFError] is raised;
    the lines it leaves unread are a tail of the lines it was given. *)
Theorem input_strategy_ends_by_plan_or_eof (total : option Z) (inp : list string) :
  exists rest, unread rest inp /\
    ((exists s, input_strategy total inp = (Ok s, rest)) \/
     input_strategy total inp = (Raise EOFError, rest)).
Proof.
  remember (length inp) as n eqn:Hn.
  revert inp Hn. induction n as [n IH] using lt_wf_ind. intros inp Hn.
  rewrite input_strategy_unfold.
  destruct inp as [|line inp'].
  - rewrite attempt_nil. exists []. split; [apply unread_refl | now right].
  - pose proof (attempt_rest total (line :: inp') ltac:(discriminate)) as Hlt.
    pose proof (attempt_unread total (line :: inp')) as Hun.
    destruct (attempt total (line :: inp')) as [r rest0]. simpl in Hlt, Hun.
    assert (length rest0 < n)%nat as Hrest by (subst n; exact Hlt).
    destruct r;
      try (destruct (IH _ Hrest rest0 eq_refl) as (rest & Hu & Hres);
           exists rest; split; [eapply unread_trans; eassumption | exact Hres]).
    + exists rest0. split; [exact Hun | left; eauto].
    + exists rest0. split; [exact Hun | now right].
Qed.

(** The compounds of an accepted plan are stored upper-cased, so the
    later [compound.upper()] of the simulation and of the chart leave them
    as they are. *)
Theorem accepted_plan_is_upper_case
    (total : option Z) (inp : list string) (s : strategy) (rest : list string)
    (H : input_strategy total inp = (Ok s, rest)) :
  Forall upper_cased s /\ entered s = s.
Proof.
  apply input_strategy_ok in H as [inp' H].
  apply attempt_accepted in H as (_ & _ & Hup & _).
  split; [exact Hup|].
  induction Hup as [|[c n] s Hc _ IH]; [reflexivity|].
  unfold upper_cased in Hc. simpl in Hc. unfold entered in *. simpl.
  now rewrite Hc, IH.
Qed.

Lemma accepted_plan_is_upper_case_witness :
  input_strategy (Some 3) ["2"; "soft 2"; "Hard 1"] = (Ok [("SOFT", 2); ("HARD", 1)], []) /\
  Forall upper_cased [("SOFT", 2); ("HARD", 1)] /\
  entered [("SOFT", 2); ("HARD", 1)] = [("SOFT", 2); ("HARD", 1)].
Proof.
  split; [reflexivity|].
  apply (accepted_plan_is_upper_case (Some 3) ["2"; "soft 2"; "Hard 1"] _ []).
  reflexivity.
Defined.

(** A stint line with a lap count of zero or less is asked again on its
    own: the stints typed before it are kept, and the pass and the whole
    entry go on as if the line had not been typed. *)
Theorem non_positive_laps_reprompt_stint
    (total : option Z) (n : nat) (pre : strategy) (c : string) (k : Z)
    (post : list string)
    (Hn : (2 <= n)%nat) (Hpre : Forall enterable pre) (Hlen : (length pre < n)%nat)
    (Hc : no_space c = true) (Hne : c <> "") (Hk : k <= 0) :
  attempt total
    (str_of_Z (Z.of_nat n) :: map stint_line pre ++ stint_line (c, k) :: post)%list
  = attempt total (str_of_Z (Z.of_nat n) :: map stint_line pre ++ post)%list /\
  input_strategy total
    (str_of_Z (Z.of_nat n) :: map stint_line pre ++ stint_line (c, k) :: post)%list
  = input_strategy total (str_of_Z (Z.of_nat n) :: map stint_line pre ++ post)%list.
Proof.
  assert (attempt total
            (str_of_Z (Z.of_nat n) :: map stint_line pre ++ stint_line (c, k) :: post)%list
          = attempt total (str_of_Z (Z.of_nat n) :: map stint_line pre ++ post)%list)
    as Ha.
  { rewrite !attempt_stints by assumption.
    rewrite !read_stints_prefix by (auto; lia).
    destruct (n - length pre)%nat as [|j] eqn:Hj; [lia|].
    cbn [read_stints]. unfold stint_line. cbn [fst snd].
    rewrite split_two by auto using no_space_str_of_Z, str_of_Z_nonempty.
    rewrite py_int_str_of_Z.
    replace (k <=? 0) with true by (symmetry; apply Z.leb_le; lia).
    reflexivity. }
  split; [exact Ha|].
  rewrite (input_strategy_unfold total (_ :: _ ++ stint_line (c, k) :: post)%list).
  rewrite (input_strategy_unfold total (_ :: _ ++ post)%list).
  now rewrite Ha.
Qed.

Lemma non_positive_laps_reprompt_stint_witness :
  input_strategy (Some 3) ["2"; "Soft 2"; "Hard 0"; "Hard 1"]
  = input_strategy (Some 3) ["2"; "Soft 2"; "Hard 1"] /\
  input_strategy (Some 3) ["2"; "Soft 2"; "Hard 1"]
  = (Ok [("SOFT", 2); ("HARD", 1)], []).
Proof.
  split; [|reflexivity].
  assert (Forall enterable [("Soft", 2)]) as Hpre
    by (repeat constructor; simpl; try discriminate; lia).
  apply (non_positive_laps_reprompt_stint (Some 3) 2 [("Soft", 2)] "Hard" 0
           ["Hard 1"] ltac:(lia) Hpre ltac:(simpl; lia) eq_refl ltac:(discriminate)
           ltac:(lia)).
Defined.

(** A stint line that is not two words, or whose second word is not an
    integer, ends the pass: the stints typed before it are dropped and
    [input_strategy] starts over on the lines that follow. *)
Theorem malformed_stint_discards_plan
    (total : option Z) (n : nat) (pre : strategy) (bad : string)
    (post : list string)
    (Hn : (2 <= n)%nat) (Hpre : Forall enterable pre) (Hlen : (length pre < n)%nat)
    (Hbad : length (split bad) <> 2%nat \/
            exists c l, split bad = [c; l] /\ py_int l = None) :
  attempt total (str_of_Z (Z.of_nat n) :: map stint_line pre ++ bad :: post)%list
  = (InvalidInput, post) /\
  input_strategy total (str_of_Z (Z.of_nat n) :: map stint_line pre ++ bad :: post)%list
  = input_strategy total post.
Proof.
  assert (attempt total
            (str_of_Z (Z.of_nat n) :: map stint_line pre ++ bad :: post)%list
          = (InvalidInput, post)) as Ha.
  { rewrite attempt_stints by assumption.
    rewrite read_stints_prefix by (auto; lia).
    destruct (n - length pre)%nat as [|j] eqn:Hj; [lia|].
    cbn [read_stints].
    destruct Hbad as [Hcount|(c & l & Hsplit & Hint)].
    - destruct (split bad) as [|a [|b [|x xs]]]; try reflexivity.
      simpl in Hcount. congruence.
    - rewrite Hsplit, Hint. reflexivity. }
  split; [exact Ha|].
  now rewrite input_strategy_unfold, Ha.
Qed.

Lemma malformed_stint_discards_plan_witness :
  attempt (Some 3) ["2"; "Soft 2"; "Hard"; "2"; "Soft 1"; "Hard 2"]
  = (InvalidInput, ["2"; "Soft 1"; "Hard 2"]) /\
  input_strategy (Some 3) ["2"; "Soft 2"; "Hard"; "2"; "Soft 1"; "Hard 2"]
  = (Ok [("SOFT", 1); ("HARD", 2)], []).
Proof.
  assert (Forall enterable [("Soft", 2)]) as Hpre
    by (repeat constructor; simpl; try discriminate; lia).
  destruct (malformed_stint_discards_plan (Some 3) 2 [("Soft", 2)] "Hard"
              ["2"; "Soft 1"; "Hard 2"] ltac:(lia) Hpre ltac:(simpl; lia)
              ltac:(left; simpl; lia)) as [Ha Hi].
  split; [exact Ha|]. etransitivity; [exact Hi | reflexivity].
Defined.

End EntryMoreProps.

(** * Facts about the driver dictionaries *)

Module DriverFacts.
Import Py Pandas RaceStrategySimulator Spec EntryMoreFacts.

Section Dict.
Context {A : Type} (key val : A -> string).

(** A key no row carries keeps what the dictionary had. *)
Lemma dict_lookup_other : forall rows (m : gmap string string) k,
  ~ In k (map key rows) ->
  fold_left (fun m row => <[key row := val row]> m) rows m !! k = m !! k.
Proof.
  induction rows as [|r rows IH]; intros m k Hk; simpl; [reflexivity|].
  simpl in Hk. rewrite IH by tauto. apply lookup_insert_ne. tauto.
Qed.

(** What is found under a key was there before or comes from a row. *)
Lemma dict_lookup_inv : forall rows (m : gmap string string) k v,
  fold_left (fun m row => <[key row := val row]> m) rows m !! k = Some v ->
  m !! k = Some v \/ exists row, In row rows /\ key row = k /\ val row = v.
Proof.
  induction rows as [|r rows IH]; intros m k v H; simpl in H; [now left|].
  apply IH in H as [H|(row & Hin & Hk & Hv)].
  - destruct (string_dec (key r) k) as [Heq|Hne].
    + subst k. rewrite lookup_insert_eq in H. inversion H; subst.
      right. exists r. simpl. auto.
    + rewrite lookup_insert_ne in H by assumption. now left.
  - right. exists row. simpl. auto.
Qed.

(** With distinct keys every row is found under its key. *)
Lemma dict_lookup_unique : forall rows (m : gmap string string) row,
  List.NoDup (map key rows) -> In row rows ->
  fold_left (fun m row => <[key row := val row]> m) rows m !! key row = Some (val row).
Proof.
  induction rows as [|r rows IH]; intros m row Hnd Hin; [contradiction|].
  simpl in Hnd. inversion Hnd as [|? ? Hr Hnd']; subst. simpl.
  destruct Hin as [->|Hin].
  - rewrite dict_lookup_other by assumption. apply lookup_insert_eq.
  - now apply IH.
Qed.

End Dict.

Lemma num_to_abbreviation_inv results num ab :
  num_to_abbreviation results !! num = Some ab ->
  exists row, In row results /\ DriverNumber row = num /\ Abbreviation row = ab.
Proof.
  intros H. apply (dict_lookup_inv DriverNumber Abbreviation) in H as [H|H];
    [now rewrite lookup_empty in H | exact H].
Qed.

Lemma abbreviation_to_num_inv results ab num :
  abbreviation_to_num results !! ab = Some num ->
  exists row, In row results /\ Abbreviation row = ab /\ DriverNumber row = num.
Proof.
  intros H. apply (dict_lookup_inv Abbreviation DriverNumber) in H as [H|H];
    [now rewrite lookup_empty in H | exact H].
Qed.

Lemma resolve_driver_in_results results driver code :
  In code (Main.resolve_driver (num_to_abbreviation results)
             (abbreviation_to_num results) driver) ->
  in_results results code.
Proof.
  unfold Main.resolve_driver.
  destruct (num_to_abbreviation results !! driver) as [ab|] eqn:Hn.
  - intros [<-|[]].
    apply num_to_abbreviation_inv in Hn as (row & Hin & _ & Hab). now exists row.
  - destruct (abbreviation_to_num results !! driver) as [num|] eqn:Ha;
      [|contradiction].
    intros [<-|[]].
    apply abbreviation_to_num_inv in Ha as (row & Hin & Hab & _). now exists row.
Qed.

(** The keys in the order of first insertion: each new one once. *)
Lemma first_occurrences_spec : forall l seen x,
  In x (Main.first_occurrences seen l) <-> In x l /\ ~ In x seen.
Proof.
  induction l as [|y l IH]; intros seen x; simpl; [tauto|].
  destruct (existsb (String.eqb y) seen) eqn:Hy.
  - apply existsb_exists in Hy as (z & Hz & Heq). apply String.eqb_eq in Heq. subst z.
    rewrite IH. split; [tauto|]. intros [[->|Hx] Hn]; [contradiction | tauto].
  - assert (~ In y seen) as Hny.
    { intros Hin. apply Bool.not_true_iff_false in Hy. apply Hy.
      apply existsb_exists. exists y. split; [exact Hin | apply String.eqb_refl]. }
    simpl. rewrite IH. simpl. split.
    + intros [->|[Hx Hn]]; [tauto|]. split; [tauto|]. intros Hin. apply Hn. now right.
    + intros [[->|Hx] Hn]; [now left|].
      destruct (string_dec y x) as [->|Hne]; [now left|].
      right. split; [exact Hx|]. intros [Heq|Hin]; [congruence | contradiction].
Qed.

Lemma first_occurrences_NoDup : forall l seen,
  List.NoDup (Main.first_occurrences seen l).
Proof.
  induction l as [|y l IH]; intros seen; simpl; [constructor|].
  destruct (existsb (String.eqb y) seen); [apply IH|].
  constructor; [|apply IH].
  rewrite first_occurrences_spec. simpl. tauto.
Qed.

Lemma abbreviation_keys_spec results code :
  In code (Main.abbreviation_keys results) <-> in_results results code.
Proof.
  unfold Main.abbreviation_keys, in_results.
  rewrite first_occurrences_spec, in_map_iff. simpl. split.
  - intros [(row & Hab & Hin) _]. eauto.
  - intros (row & Hin & Hab). split; [eauto | tauto].
Qed.

Lemma lower_upper_all line :
  eq_ignore_case line "all" = true -> lower (upper line) = "all".
Proof.
  intros H. apply SimulationFacts.eq_ignore_case_upper in H. now rewrite H.
Qed.

(** [get_drivers_to_analyze] returns all keys or drivers it has resolved. *)
Lemma get_drivers_to_analyze_inv results keys : forall inp ds rest,
  Main.get_drivers_to_analyze (num_to_abbreviation results)
    (abbreviation_to_num results) keys inp = Ok (ds, rest) ->
  unread rest inp /\
  (ds = keys \/ ds <> [] /\ Forall (in_results results) ds).
Proof.
  induction inp as [|line inp IH]; intros ds rest H; simpl in H; [discriminate|].
  destruct (String.eqb (lower (upper line)) "all").
  - inversion H; subst. split; [apply unread_cons, unread_refl | now left].
  - destruct (flat_map _ (re_split (upper (upper line)))) as [|d0 dl] eqn:Hf.
    + apply IH in H as [Hun Hres]. split; [now apply unread_cons | exact Hres].
    + inversion H; subst. split; [apply unread_cons, unread_refl|].
      right. split; [discriminate|].
      apply List.Forall_forall. intros d Hd. rewrite <- Hf in Hd.
      apply in_flat_map in Hd as (tok & _ & Hd).
      eapply resolve_driver_in_results. exact Hd.
Qed.

End DriverFacts.

(** * Properties of driver selection *)

Module DriverProps.
Import Py Pandas RaceStrategySimulator Spec EntryMoreFacts DriverFacts.

(** The driver [get_drivers] settles on names a row of the results table,
    whether a number or an abbreviation was typed; the lines after the
    accepted one are left unread. *)
Theorem chosen_driver_is_in_results
    (results : list DriverResult) (inp : list string) (code : string)
    (rest : list string)
    (H : ask_driver (num_to_abbreviation results) (abbreviation_to_num results) inp
         = Ok (code, rest)) :
  in_results results code /\ unread rest inp.
Proof.
  revert code rest H.
  induction inp as [|line inp IH]; intros code rest H; simpl in H; [discriminate|].
  destruct (num_to_abbreviation results !! upper line) as [ab|] eqn:Hn.
  - inversion H; subst.
    apply num_to_abbreviation_inv in Hn as (row & Hin & _ & Hab).
    split; [now exists row | apply unread_cons, unread_refl].
  - destruct (abbreviation_to_num results !! upper line) as [num|] eqn:Ha.
    + inversion H; subst.
      apply abbreviation_to_num_inv in Ha as (row & Hin & Hab & _).
      split; [now exists row | apply unread_cons, unread_refl].
    + apply IH in H as [Hres Hun]. split; [exact Hres | now apply unread_cons].
Qed.

Lemma chosen_driver_is_in_results_witness :
  ask_driver (num_to_abbreviation (results Sample.short_race))
    (abbreviation_to_num (results Sample.short_race)) ["ham"; "44"; "2"]
  = Ok ("XXX", ["2"]) /\
  in_results (results Sample.short_race) "XXX" /\
  unread ["2"] ["ham"; "44"; "2"].
Proof.
  split; [vm_compute; reflexivity|].
  apply (chosen_driver_is_in_results (results Sample.short_race) ["ham"; "44"; "2"]
           "XXX" ["2"]).
  vm_compute. reflexivity.
Defined.

(** When no driver number and no abbreviation occurs twice in the results,
    the two dictionaries of [create_driver_mappings] are inverse to each
    other, and they hold exactly the rows of the table. *)
Theorem driver_mappings_inverse
    (results : list DriverResult) (num ab : string)
    (Hnum : List.NoDup (map DriverNumber results))
    (Hab : List.NoDup (map Abbreviation results)) :
  (num_to_abbreviation results !! num = Some ab
   <-> abbreviation_to_num results !! ab = Some num) /\
  (num_to_abbreviation results !! num = Some ab
   <-> exists row, In row results /\ DriverNumber row = num /\ Abbreviation row = ab).
Proof.
  assert (num_to_abbreviation results !! num = Some ab
          <-> exists row, In row results /\ DriverNumber row = num /\
                          Abbreviation row = ab) as H1.
  { split; [apply num_to_abbreviation_inv|].
    intros (row & Hin & <- & <-).
    now apply (dict_lookup_unique DriverNumber Abbreviation). }
  assert (abbreviation_to_num results !! ab = Some num
          <-> exists row, In row results /\ DriverNumber row = num /\
                          Abbreviation row = ab) as H2.
  { split.
    - intros H. apply abbreviation_to_num_inv in H as (row & Hin & Ha & Hn). eauto.
    - intros (row & Hin & <- & <-).
      now apply (dict_lookup_unique Abbreviation DriverNumber). }
  split; [now rewrite H1, H2 | exact H1].
Qed.

Lemma driver_mappings_inverse_witness :
  num_to_abbreviation (results Sample.short_race) !! "44" = Some "XXX" /\
  abbreviation_to_num (results Sample.short_race) !! "XXX" = Some "44".
Proof.
  assert (num_to_abbreviation (results Sample.short_race) !! "44" = Some "XXX") as H
    by (vm_compute; reflexivity).
  split; [exact H|].
  apply (driver_mappings_inverse (results Sample.short_race) "44" "XXX");
    [repeat constructor; simpl; intuition discriminate
    |repeat constructor; simpl; intuition discriminate
    |exact H].
Defined.

(** [get_drivers_to_analyze] returns either all keys of the abbreviation
    dictionary, or a list that is not empty and holds only drivers of the
    results table: whatever else was typed between the separators is
    dropped without notice. *)
Theorem analyzed_drivers_are_valid
    (results : list DriverResult) (inp : list string) (ds : list string)
    (rest : list string)
    (H : Main.get_drivers_to_analyze (num_to_abbreviation results)
           (abbreviation_to_num results) (Main.abbreviation_keys results) inp
         = Ok (ds, rest)) :
  Forall (in_results results) ds /\
  (ds = Main.abbreviation_keys results \/ ds <> []) /\
  unread rest inp.
Proof.
  apply get_drivers_to_analyze_inv in H as [Hun [->|[Hne Hall]]].
  - split; [|split; [now left | exact Hun]].
    apply List.Forall_forall. intros d. apply abbreviation_keys_spec.
  - split; [exact Hall|]. split; [now right | exact Hun].
Qed.

Lemma analyzed_drivers_are_valid_witness :
  Main.get_drivers_to_analyze (num_to_abbreviation (results Sample.short_race))
    (abbreviation_to_num (results Sample.short_race))
    (Main.abbreviation_keys (results Sample.short_race)) ["zzz"; " 44, ver;foo"; "next"]
  = Ok (["XXX"; "VER"], ["next"]) /\
  Forall (in_results (results Sample.short_race)) ["XXX"; "VER"].
Proof.
  assert (Main.get_drivers_to_analyze (num_to_abbreviation (results Sample.short_race))
            (abbreviation_to_num (results Sample.short_race))
            (Main.abbreviation_keys (results Sample.short_race))
            ["zzz"; " 44, ver;foo"; "next"]
          = Ok (["XXX"; "VER"], ["next"])) as H by (vm_compute; reflexivity).
  split; [exact H|].
  apply (analyzed_drivers_are_valid _ _ _ _ H).
Defined.

(** Typing [all] in any mix of cases returns every abbreviation of the
    results table once, in the order of the table, without looking at
    anything else on the line. *)
Theorem all_selects_every_driver
    (results : list DriverResult) (line : string) (rest : list string)
    (Hall : eq_ignore_case line "all" = true) :
  Main.get_drivers_to_analyze (num_to_abbreviation results)
    (abbreviation_to_num results) (Main.abbreviation_keys results) (line :: rest)
  = Ok (Main.abbreviation_keys results, rest) /\
  List.NoDup (Main.abbreviation_keys results) /\
  (forall code, In code (Main.abbreviation_keys results) <-> in_results results code).
Proof.
  split; [|split; [apply first_occurrences_NoDup | apply abbreviation_keys_spec]].
  cbn [Main.get_drivers_to_analyze].
  now rewrite (lower_upper_all line Hall).
Qed.

Lemma all_selects_every_driver_witness :
  eq_ignore_case "All" "all" = true /\
  Main.get_drivers_to_analyze (num_to_abbreviation (results Sample.short_race))
    (abbreviation_to_num (results Sample.short_race))
    (Main.abbreviation_keys (results Sample.short_race)) ["All"; "next"]
  = Ok (["VER"; "XXX"; "DNF"], ["next"]).
Proof.
  split; [reflexivity|].
  apply (all_selects_every_driver (results Sample.short_race) "All" ["next"]).
  reflexivity.
Defined.

End DriverProps.

(** * Facts about the choice of the race *)

Module RaceChoiceFacts.
Import Py Pandas Spec EntryMoreFacts.

Lemma get_race_from_input_rest calendar : forall inp,
  (length (snd (Main.get_race_from_input calendar inp)) <= length inp)%nat.
Proof.
  induction inp as [|line inp IH]; simpl; [lia|].
  destruct (isdigit line).
  - destruct (py_int line) as [n|]; simpl; [|lia].
    destruct (List.filter _ calendar); simpl; lia.
  - destruct (strip line); simpl; lia.
Qed.

(** What [get_race_from_input] returns: the name of the first calendar
    row with the round typed, or a typed line that is neither a number
    nor blank. *)
Lemma get_race_from_input_ok calendar : forall inp race rest,
  Main.get_race_from_input calendar inp = (Ok race, rest) ->
  (exists e, In e calendar /\ Main.EventName e = race) \/
  (isdigit race = false /\ strip race <> "").
Proof.
  induction inp as [|line inp IH]; intros race rest H; simpl in H; [discriminate|].
  destruct (isdigit line) eqn:Hd.
  - destruct (py_int line) as [n|]; [|discriminate].
    destruct (List.filter (fun e => Main.RoundNumber e =? n) calendar)
      as [|e es] eqn:Hf; [now apply IH in H|].
    inversion H; subst. left. exists e. split; [|reflexivity].
    assert (In e (List.filter (fun e => Main.RoundNumber e =? n) calendar)) as Hin
      by (rewrite Hf; now left).
    now apply filter_In in Hin.
  - destruct (strip line) eqn:Hs; [now apply IH in H|].
    inversion H; subst. right. split; [exact Hd|]. rewrite Hs. discriminate.
Qed.

Section WithSchedule.
Variable schedule : Z -> option (list Main.Event).

Lemma race_details_pass_rest inp :
  inp <> [] ->
  (length (snd (Main.race_details_pass schedule inp)) < length inp)%nat.
Proof.
  destruct inp as [|line rest]; [congruence|]. intros _. simpl.
  destruct (py_int line) as [year|]; simpl; [|lia].
  destruct (year <? 2018); simpl; [lia|].
  destruct (schedule year) as [cal|]; simpl; [|lia].
  pose proof (get_race_from_input_rest cal rest) as Hle.
  destruct (Main.get_race_from_input cal rest) as [[race|e] rest']; simpl in *.
  - destruct race; simpl; lia.
  - destruct e; simpl; lia.
Qed.

(** What a pass that chooses has checked. *)
Lemma race_details_pass_chosen inp year race rest :
  Main.race_details_pass schedule inp = (Main.Chosen year race, rest) ->
  2018 <= year /\ race <> "" /\
  exists cal, schedule year = Some cal /\
    ((exists e, In e cal /\ Main.EventName e = race) \/
     (isdigit race = false /\ strip race <> "")).
Proof.
  destruct inp as [|line inp']; simpl; [discriminate|].
  destruct (py_int line) as [y|]; [|discriminate].
  destruct (y <? 2018) eqn:Hy; [discriminate|].
  destruct (schedule y) as [cal|] eqn:Hcal; [|discriminate].
  destruct (Main.get_race_from_input cal inp') as [[r|e] rest'] eqn:Hr.
  - destruct r as [|ch r']; [discriminate|].
    intros H; inversion H; subst.
    apply Z.ltb_ge in Hy. split; [exact Hy|]. split; [discriminate|].
    exists cal. split; [exact Hcal|].
    eapply get_race_from_input_ok. exact Hr.
  - destruct e; discriminate.
Qed.

(** The fuel given by [get_race_details] is never used up. *)
Lemma get_race_details_loop_fuel : forall n inp fuel,
  (length inp < n)%nat -> (length inp < fuel)%nat ->
  Main.get_race_details_loop schedule fuel inp
  = Main.get_race_details_loop schedule n inp /\
  Main.get_race_details_loop schedule n inp <> None.
Proof.
  induction n as [|n IH]; intros inp fuel Hn Hf; [lia|].
  destruct fuel as [|fuel]; [lia|]. cbn [Main.get_race_details_loop].
  destruct inp as [|line inp'] eqn:Hinp.
  - simpl. split; [reflexivity | discriminate].
  - pose proof (race_details_pass_rest (line :: inp') ltac:(discriminate)) as Hlt.
    destruct (Main.race_details_pass schedule (line :: inp')) as [r rest].
    simpl in Hlt, Hn, Hf.
    destruct r; try (split; [reflexivity | discriminate]).
    apply IH; lia.
Qed.

Lemma get_race_details_loop_ok : forall fuel inp year race rest,
  Main.get_race_details_loop schedule fuel inp = Some (Ok (year, race), rest) ->
  exists inp', Main.race_details_pass schedule inp' = (Main.Chosen year race, rest).
Proof.
  induction fuel as [|fuel IH]; intros inp year race rest H; [discriminate|].
  cbn [Main.get_race_details_loop] in H.
  destruct (Main.race_details_pass schedule inp) as [r rest0] eqn:Hp.
  destruct r.
  - inversion H; subst. eauto.
  - eapply IH. exact H.
  - discriminate.
Qed.

End WithSchedule.

End RaceChoiceFacts.

(** * Properties of the choice of the race *)

Module RaceChoiceProps.
Import Py Pandas Spec RaceChoiceFacts.

(** What [get_race_details] returns was checked on the way: the year is
    2018 or later and has a calendar, and the race is not empty: it is
    the event name of a calendar row (chosen by its round number) or a
    typed line that is neither a number nor blank. *)
Theorem race_details_are_checked
    (schedule : Z -> option (list Main.Event)) (inp : list string)
    (year : Z) (race : string) (rest : list string)
    (H : Main.get_race_details schedule inp = (Ok (year, race), rest)) :
  2018 <= year /\ race <> "" /\
  exists cal, schedule year = Some cal /\
    ((exists e, In e cal /\ Main.EventName e = race) \/
     (isdigit race = false /\ strip race <> "")).
Proof.
  unfold Main.get_race_details in H.
  destruct (Main.get_race_details_loop schedule (S (length inp)) inp)
    as [r|] eqn:Hloop; [|discriminate].
  subst r.
  apply get_race_details_loop_ok in Hloop as [inp' Hpass].
  eapply race_details_pass_chosen. exact Hpass.
Qed.

Lemma race_details_are_checked_witness :
  Main.get_race_details Sample.schedule
    ["x"; "2017"; "2024"; "2023"; "7"; " "; "6"; "more"]
  = (Ok (2023, "Monaco Grand Prix"), ["more"]) /\
  2018 <= 2023 /\ "Monaco Grand Prix" <> "".
Proof.
  split; [reflexivity|].
  destruct (race_details_are_checked Sample.schedule
              ["x"; "2017"; "2024"; "2023"; "7"; " "; "6"; "more"]
              2023 "Monaco Grand Prix" ["more"] eq_refl) as (Hy & Hr & _).
  split; assumption.
Defined.

End RaceChoiceProps.

(** * Facts about the strategy chart *)

Module ChartFacts.
Import Py Pandas Spec Plotting.

Lemma draw_bars b l cv : bars (draw b l cv) = (bars cv ++ [b])%list.
Proof. unfold draw. now destruct (labelled l cv). Qed.

Lemma labelled_In l cv : labelled l cv = true <-> In l (existing_labels cv).
Proof.
  unfold labelled. rewrite existsb_exists. split.
  - intros (x & Hx & Heq). apply String.eqb_eq in Heq. now subst.
  - intros H. exists l. split; [exact H | apply String.eqb_refl].
Qed.

Lemma draw_legend_ok b l cv : legend_ok cv -> legend_ok (draw b l cv).
Proof.
  intros [Hnd Hmap]. unfold draw.
  destruct (labelled l cv) eqn:Hl; [now split|].
  split; simpl.
  - apply List.NoDup_app; [exact Hnd | repeat constructor; simpl; tauto|].
    intros x Hx [<-|[]].
    apply labelled_In in Hx. congruence.
  - now rewrite map_app, Hmap.
Qed.

Section WithColors.
Variable colors : string -> option string.

(** The bars of one driver follow one another from where the row starts. *)
Lemma plot_driver_stints_bars driver : forall rows start cv,
  exists new,
    bars (plot_driver_stints colors driver rows start cv) = (bars cv ++ new)%list /\
    tiled start new /\
    total_width new = stint_total rows /\
    Forall (fun b => Bar.y b = driver) new /\
    (legend_ok cv -> legend_ok (plot_driver_stints colors driver rows start cv)).
Proof.
  induction rows as [|row rows IH]; intros start cv; cbn [plot_driver_stints].
  - exists []. rewrite app_nil_r.
    split; [reflexivity|]. split; [exact I|]. split; [reflexivity|].
    split; [constructor | auto].
  - destruct (IH (start + RaceAnalysis.Stints.StintLength row)
                (draw {| Bar.y := driver;
                         Bar.width := RaceAnalysis.Stints.StintLength row;
                         Bar.left := start;
                         Bar.color := compound_color colors
                                        (RaceAnalysis.Stints.Compound row);
                         Bar.hatch := false |}
                   (RaceAnalysis.Stints.Compound row) cv))
      as (new & Hbars & Htiled & Hwidth & Hy & Hleg).
    eexists (_ :: new). rewrite Hbars, draw_bars, <- app_assoc.
    split; [reflexivity|]. split; [split; [reflexivity | exact Htiled]|].
    split; [unfold total_width, stint_total in *; simpl; now rewrite Hwidth|].
    split; [constructor; [reflexivity | exact Hy]|].
    intros Hok. apply Hleg. now apply draw_legend_ok.
Qed.

(** The bars of the simulated row do the same with the stints of the plan. *)
Lemma plot_simulated_stints_bars sim_driver : forall plan start cv,
  exists new,
    bars (plot_simulated_stints colors sim_driver plan start cv)
    = (bars cv ++ new)%list /\
    tiled start new /\
    map Bar.width new = map snd plan /\
    Forall (fun b => Bar.y b = sim_driver /\ Bar.hatch b = true) new /\
    (legend_ok cv -> legend_ok (plot_simulated_stints colors sim_driver plan start cv)).
Proof.
  induction plan as [|[c n] plan IH]; intros start cv; cbn [plot_simulated_stints].
  - exists []. rewrite app_nil_r.
    split; [reflexivity|]. split; [exact I|]. split; [reflexivity|].
    split; [constructor | auto].
  - destruct (IH (start + n)
                (draw {| Bar.y := sim_driver; Bar.width := n; Bar.left := start;
                         Bar.color := compound_color colors (upper c);
                         Bar.hatch := true |} (upper c) cv))
      as (new & Hbars & Htiled & Hwidth & Hy & Hleg).
    eexists (_ :: new). rewrite Hbars, draw_bars, <- app_assoc.
    split; [reflexivity|]. split; [split; [reflexivity | exact Htiled]|].
    split; [simpl; now rewrite Hwidth|].
    split; [constructor; [split; reflexivity | exact Hy]|].
    intros Hok. apply Hleg. now apply draw_legend_ok.
Qed.

Lemma plot_drivers_legend_ok lap_data : forall drivers cv,
  legend_ok cv ->
  legend_ok (fold_left (fun cv driver =>
                          plot_driver_stints colors driver (stints_of driver lap_data) 0 cv)
               drivers cv).
Proof.
  induction drivers as [|d drivers IH]; intros cv Hok; simpl; [exact Hok|].
  apply IH.
  destruct (plot_driver_stints_bars d (stints_of d lap_data) 0 cv)
    as (_ & _ & _ & _ & _ & Hleg).
  now apply Hleg.
Qed.

Lemma blank_legend_ok : legend_ok blank.
Proof. split; [constructor | reflexivity]. Qed.

End WithColors.

Lemma total_width_widths bs :
  total_width bs = fold_right Z.add 0 (map Bar.width bs).
Proof. reflexivity. Qed.

End ChartFacts.

(** * Properties of the strategy chart *)

Module ChartProps.
Import Py Pandas Spec Plotting ChartFacts.

(** In the chart of a plan that [input_strategy] accepted for a race of
    [m] laps, the bars of the simulated row come after the bars of the
    real drivers, carry the label ["SIM "] followed by the driver code and
    the hatch, have the planned lap counts as widths, follow one another
    from lap 0 without gap or overlap, and end at lap [m]. *)
Theorem simulated_row_tiles_race
    (colors : string -> option string)
    (lap_data : list RaceAnalysis.Stints.row) (drivers : list string)
    (code : string) (m : Z) (inp rest : list string)
    (plan : RaceStrategySimulator.strategy)
    (Hacc : RaceStrategySimulator.input_strategy (Some m) inp = (Py.Ok plan, rest))
    (Hcode : code <> "") :
  exists cv0 cv sim,
    plot_tyre_strategies colors (Some lap_data) (Some drivers) None None = Some cv0 /\
    plot_tyre_strategies colors (Some lap_data) (Some drivers) (Some code) (Some plan)
    = Some cv /\
    bars cv = (bars cv0 ++ sim)%list /\
    tiled 0 sim /\
    map Bar.width sim = map snd plan /\
    total_width sim = m /\
    Forall (fun b => Bar.y b = ("SIM " ++ code)%string /\ Bar.hatch b = true) sim.
Proof.
  apply EntryFacts.input_strategy_ok in Hacc as [inp' Hacc].
  apply EntryFacts.attempt_accepted in Hacc as (Hlen & _ & _ & Hsum).
  unfold plot_tyre_strategies.
  set (cv0 := fold_left _ drivers blank).
  destruct plan as [|stint plan']; [simpl in Hlen; lia|].
  apply String.eqb_neq in Hcode. rewrite Hcode.
  destruct (plot_simulated_stints_bars colors ("SIM " ++ code)%string
              (stint :: plan') 0 cv0) as (sim & Hbars & Htiled & Hwidth & Hy & _).
  exists cv0, (plot_simulated_stints colors ("SIM " ++ code)%string (stint :: plan') 0 cv0),
    sim.
  repeat split; try assumption.
  rewrite total_width_widths, Hwidth.
  unfold RaceStrategySimulator.strategy_laps in Hsum. congruence.
Qed.

Lemma simulated_row_tiles_race_witness :
  exists cv0 cv sim,
    plot_tyre_strategies Sample.colours
      (RaceAnalysis.analyze_stint_and_compound_data (Some (laps Sample.two_stint_race)))
      (Some ["VER"; "XXX"]) (Some "VER") (Some [("SOFT", 2); ("HARD", 1)]) = Some cv /\
    bars cv = (bars cv0 ++ sim)%list /\
    map Bar.left sim = [0; 2] /\ total_width sim = 3.
Proof.
  destruct (simulated_row_tiles_race Sample.colours
              [ {| RaceAnalysis.Stints.Driver := "VER"; RaceAnalysis.Stints.Stint := 1;
                   RaceAnalysis.Stints.Compound := "SOFT";
                   RaceAnalysis.Stints.StintLength := 2 |};
                {| RaceAnalysis.Stints.Driver := "VER"; RaceAnalysis.Stints.Stint := 2;
                   RaceAnalysis.Stints.Compound := "HARD";
                   RaceAnalysis.Stints.StintLength := 1 |};
                {| RaceAnalysis.Stints.Driver := "XXX"; RaceAnalysis.Stints.Stint := 1;
                   RaceAnalysis.Stints.Compound := "HARD";
                   RaceAnalysis.Stints.StintLength := 2 |} ]
              ["VER"; "XXX"] "VER" 3 ["2"; "soft 2"; "hard 1"] []
              [("SOFT", 2); ("HARD", 1)] eq_refl ltac:(discriminate))
    as (cv0 & cv & sim & H0 & Hcv & Hbars & Htiled & Hwidth & Htotal & _).
  exists cv0, cv, sim. split; [exact Hcv|]. split; [exact Hbars|].
  split; [|exact Htotal].
  destruct sim as [|b1 [|b2 [|b3 sim]]]; try discriminate.
  simpl in Htiled. destruct Htiled as (Hl1 & Hl2 & _).
  simpl in Hwidth. inversion Hwidth as [[Hw1 Hw2]].
  simpl. rewrite Hl1, Hl2, Hw1. reflexivity.
Defined.

(** Whatever is drawn, the legend of the chart never shows a label twice
    and has exactly one patch per label met. *)
Theorem legend_labels_unique
    (colors : string -> option string)
    (lap_data : option (list RaceAnalysis.Stints.row)) (drivers : option (list string))
    (driver_code : option string)
    (simulated_strategy : option (list (string * Z))) (cv : canvas)
    (H : plot_tyre_strategies colors lap_data drivers driver_code simulated_strategy
         = Some cv) :
  legend_ok cv.
Proof.
  unfold plot_tyre_strategies in H.
  destruct lap_data as [ld|]; [|discriminate].
  destruct drivers as [ds|]; [|discriminate].
  pose proof (plot_drivers_legend_ok colors ld ds blank blank_legend_ok) as Hok.
  destruct simulated_strategy as [[|stint plan]|];
    try (inversion H; subst; exact Hok).
  destruct driver_code as [code|]; [|inversion H; subst; exact Hok].
  destruct (String.eqb code ""); inversion H; subst; [exact Hok|].
  destruct (plot_simulated_stints_bars colors ("SIM " ++ code)%string (stint :: plan) 0
              (fold_left (fun cv driver =>
                            plot_driver_stints colors driver (stints_of driver ld) 0 cv)
                 ds blank)) as (_ & _ & _ & _ & _ & Hleg).
  now apply Hleg.
Qed.

Lemma legend_labels_unique_witness :
  exists cv,
    plot_tyre_strategies Sample.colours
      (RaceAnalysis.analyze_stint_and_compound_data (Some (laps Sample.two_stint_race)))
      (Some ["VER"; "XXX"]) (Some "VER") (Some [("soft", 2); ("Wet", 1)]) = Some cv /\
    existing_labels cv = ["SOFT"; "HARD"; "WET"] /\ legend_ok cv.
Proof.
  destruct (plot_tyre_strategies Sample.colours
              (RaceAnalysis.analyze_stint_and_compound_data
                 (Some (laps Sample.two_stint_race)))
              (Some ["VER"; "XXX"]) (Some "VER") (Some [("soft", 2); ("Wet", 1)]))
    as [cv|] eqn:H; [|vm_compute in H; discriminate].
  pose proof (legend_labels_unique Sample.colours _ _ _ _ cv H) as Hok.
  exists cv. split; [reflexivity|]. split; [|exact Hok].
  vm_compute in H. injection H as <-. reflexivity.
Defined.

(** For the table of [analyze_stint_and_compound_data], the bars of a
    driver's row follow one another from lap 0 and end at the number of
    that driver's lap records that carry a compound. *)
Theorem driver_row_ends_at_lap_count
    (colors : string -> option string) (laps : list LapRecord)
    (rows : list RaceAnalysis.Stints.row) (d : string) (cv : canvas)
    (H : RaceAnalysis.analyze_stint_and_compound_data (Some laps) = Some rows) :
  exists new,
    bars (plot_driver_stints colors d (stints_of d rows) 0 cv) = (bars cv ++ new)%list /\
    tiled 0 new /\
    total_width new = Z.of_nat (length (laps_with_compound d laps)) /\
    Forall (fun b => Bar.y b = d) new.
Proof.
  destruct (plot_driver_stints_bars colors d (stints_of d rows) 0 cv)
    as (new & Hbars & Htiled & Hwidth & Hy & _).
  exists new. repeat split; try assumption.
  rewrite Hwidth. rewrite StintFacts.analyze_rows in H. inversion H; subst.
  apply StintFacts.driver_stint_total.
Qed.

Lemma driver_row_ends_at_lap_count_witness :
  exists new,
    bars (plot_driver_stints Sample.colours "VER"
            (stints_of "VER"
               [ {| RaceAnalysis.Stints.Driver := "VER"; RaceAnalysis.Stints.Stint := 1;
                    RaceAnalysis.Stints.Compound := "SOFT";
                    RaceAnalysis.Stints.StintLength := 2 |};
                 {| RaceAnalysis.Stints.Driver := "VER"; RaceAnalysis.Stints.Stint := 2;
                    RaceAnalysis.Stints.Compound := "HARD";
                    RaceAnalysis.Stints.StintLength := 1 |};
                 {| RaceAnalysis.Stints.Driver := "XXX"; RaceAnalysis.Stints.Stint := 1;
                    RaceAnalysis.Stints.Compound := "HARD";
                    RaceAnalysis.Stints.StintLength := 2 |} ]) 0 blank)
    = (bars blank ++ new)%list /\
    total_width new = 3.
Proof.
  destruct (driver_row_ends_at_lap_count Sample.colours (laps Sample.two_stint_race)
              _ "VER" blank eq_refl) as (new & Hbars & _ & Hwidth & _).
  exists new. split; [exact Hbars | exact Hwidth].
Defined.

End ChartProps.

(** * Facts about the stint table of the comparison *)

Module TableFacts.
Import Py Pandas RaceStrategySimulator Spec.

Lemma range_from_one_length n : length (range_from_one n) = Z.to_nat n.
Proof. unfold range_from_one. now rewrite length_map, length_seq. Qed.

Lemma range_from_one_nth n i :
  (i < Z.to_nat n)%nat -> nth_error (range_from_one n) i = Some (Z.of_nat (S i)).
Proof.
  intros Hi. unfold range_from_one.
  rewrite nth_error_map, nth_error_seq.
  apply Nat.ltb_lt in Hi. rewrite Hi. reflexivity.
Qed.

(** The planned column of row [i + 1] is entry [i] of the plan, if any. *)
Lemma table_row_planned actual (plan : strategy) i :
  table_row actual plan (Z.of_nat (S i))
  = (Z.of_nat (S i), get_actual_stint_info actual (Z.of_nat (S i)), nth_error plan i).
Proof.
  unfold table_row. f_equal.
  destruct (Z.of_nat (S i) <=? Z.of_nat (length plan)) eqn:Hle.
  - f_equal. lia.
  - symmetry. apply nth_error_None. apply Z.leb_gt in Hle. lia.
Qed.

Lemma py_max_spec a b n :
  py_max a b = Some n -> b <= n /\ exists x, a = Some x /\ x <= n.
Proof.
  unfold py_max. destruct a as [x|]; [|discriminate].
  destruct (b >? x) eqn:Hgt; intros H; inversion H; subst.
  - split; [lia|]. exists x. split; [reflexivity|]. lia.
  - split; [|exists n; split; [reflexivity | lia]].
    destruct (Z.gtb_spec b n); [discriminate | lia].
Qed.

(** A driver without a lap record that carries a compound has no row in
    the stint table. *)
Lemma no_compound_no_rows ld code :
  laps_with_compound code ld = [] ->
  List.filter (fun r => String.eqb (RaceAnalysis.Stints.Driver r) code)
    (map (make_row (RaceAnalysis.complete_keys ld))
       (RaceAnalysis.group_keys (RaceAnalysis.complete_keys ld))) = [].
Proof.
  intros Hnone.
  destruct (List.filter _ _) as [|r rs] eqn:Hf; [reflexivity|]. exfalso.
  assert (In r (r :: rs)) as Hin by now left.
  rewrite <- Hf in Hin. apply filter_In in Hin as [Hin Hd].
  apply in_map_iff in Hin as ([[d s] c] & <- & Hk).
  apply StintFacts.group_keys_In, StintFacts.complete_keys_In in Hk
    as (l & c' & Hl & Hc & Heq).
  inversion Heq; subst. simpl in Hd.
  assert (In l (laps_with_compound code ld)) as Hbad.
  { unfold laps_with_compound. apply filter_In. split; [exact Hl|].
    now rewrite Hd, Hc. }
  rewrite Hnone in Hbad. contradiction.
Qed.



End TableFacts.

(** * Properties of the stint table of the comparison *)

Module TableProps.
Import Py Pandas RaceStrategySimulator Spec TableFacts.

(** When [compare_strategy] prints its table, the rows are numbered from
    1 on, row [i] shows entry [i] of the plan (nothing beyond the plan)
    beside what [get_actual_stint_info] finds for stint [i], and there are
    at least as many rows as the plan has stints and as the largest stint
    number the driver has in the stint table. *)
Theorem stint_table_shape
    (parse : string -> option Timedelta) (self : t) (code : string)
    (rows : list (Z * table_cell * table_cell))
    (H : compare_strategy_table parse self code = Ok (Some rows)) :
  exists data,
    RaceAnalysis.analyze_stint_and_compound_data (get_lap_data self) = Some data /\
    let actual :=
      List.filter (fun r => String.eqb (RaceAnalysis.Stints.Driver r) code) data in
    (length (user_strategy self) <= length rows)%nat /\
    (forall r, In r actual -> RaceAnalysis.Stints.Stint r <= Z.of_nat (length rows)) /\
    (forall i, (i < length rows)%nat ->
       nth_error rows i
       = Some (Z.of_nat (S i), get_actual_stint_info actual (Z.of_nat (S i)),
               nth_error (user_strategy self) i)).
Proof.
  unfold compare_strategy_table in H.
  destruct (analysis self) as [results|]; [|discriminate].
  destruct (RaceAnalysis.get_driver_race_time parse results code)
    as [[actual_time out]|e]; [|discriminate].
  cbn [bind] in H.
  destruct (RaceAnalysis.analyze_stint_and_compound_data (get_lap_data self))
    as [data|]; [|discriminate].
  exists data. split; [reflexivity|]. cbv zeta.
  set (actual := List.filter _ data) in *.
  destruct actual_time as [t0|]; [|discriminate].
  destruct (py_max (col_max (map RaceAnalysis.Stints.Stint actual))
              (Z.of_nat (length (user_strategy self)))) as [n|] eqn:Hmax;
    [|discriminate].
  inversion H; subst. clear H.
  apply py_max_spec in Hmax as (Hlen & mx & Hmx & Hle).
  rewrite length_map, range_from_one_length.
  split; [lia|]. split.
  - intros r Hr.
    apply GateFacts.col_max_spec in Hmx as [_ Hall].
    specialize (Hall (RaceAnalysis.Stints.Stint r) (in_map _ _ _ Hr)). lia.
  - intros i Hi.
    rewrite nth_error_map, range_from_one_nth by exact Hi.
    cbn [option_map]. now rewrite table_row_planned.
Qed.

Lemma stint_table_shape_witness :
  compare_strategy_table Sample.parse_duration
    (Sample.ready [("SOFT", 1); ("HARD", 1); ("SOFT", 1)]) "XXX"
  = Ok (Some [ (1, Some ("HARD", 3), Some ("SOFT", 1));
               (2, None, Some ("HARD", 1));
               (3, None, Some ("SOFT", 1)) ]) /\
  (length [("SOFT", 1); ("HARD", 1); ("SOFT", 1)] <= 3)%nat.
Proof.
  assert (compare_strategy_table Sample.parse_duration
            (Sample.ready [("SOFT", 1); ("HARD", 1); ("SOFT", 1)]) "XXX"
          = Ok (Some [ (1, Some ("HARD", 3), Some ("SOFT", 1));
                       (2, None, Some ("HARD", 1));
                       (3, None, Some ("SOFT", 1)) ])) as H
    by (vm_compute; reflexivity).
  split; [exact H|].
  destruct (stint_table_shape _ _ _ _ H) as (data & _ & Hlen & _).
  exact Hlen.
Defined.

(** A driver with an actual race time but without a single lap record
    that carries a compound makes [compare_strategy] fail: the largest
    stint number is NaN, and turning it into the number of rows raises
    [ValueError]. *)
Theorem stint_table_without_stints_raises
    (parse : string -> option Timedelta) (self : t) (code : string)
    (results : list DriverResult) (ld : list LapRecord)
    (t0 : Timedelta) (out : list RaceAnalysis.report)
    (Hres : analysis self = Some results)
    (Htime : RaceAnalysis.get_driver_race_time parse results code = Ok (Some t0, out))
    (Hld : get_lap_data self = Some ld)
    (Hnone : laps_with_compound code ld = []) :
  compare_strategy_table parse self code = Raise ValueError.
Proof.
  unfold compare_strategy_table. rewrite Hres, Htime. cbn [bind].
  rewrite Hld, StintFacts.analyze_rows. cbv zeta.
  rewrite (no_compound_no_rows ld code Hnone). reflexivity.
Qed.

Lemma stint_table_without_stints_raises_witness :
  did_driver_finish
    (with_driver_code (Some "VER")
       (load_and_initialize_data (Some Sample.no_compound_race) init)) "VER"
  = Ok (true,
        ensure_lap_data
          (with_driver_code (Some "VER")
             (load_and_initialize_data (Some Sample.no_compound_race) init))) /\
  compare_strategy_table Sample.parse_duration
    (with_user_strategy [("SOFT", 1); ("HARD", 1)]
       (with_driver_code (Some "VER")
          (load_and_initialize_data (Some Sample.no_compound_race) init))) "VER"
  = Raise ValueError.
Proof.
  split; [reflexivity|].
  apply (stint_table_without_stints_raises Sample.parse_duration _ "VER"
           (results Sample.no_compound_race) (laps Sample.no_compound_race)
           (TD 5400) []); reflexivity.
Defined.

End TableProps.

(** * The whole run *)

Module FullRunProps.
Import Py Pandas RaceStrategySimulator Spec PyFacts SimulationFacts RunFacts TableFacts.



End FullRunProps.
